(** * Cost projections of message-ix-models: a shallow embedding

    Embedding of [message_ix_models/tools/costs/projections.py]:
    the entry point [get_cost_projections] and the record builder
    [create_message_inputs].

    Conventions.
    - Python [str] is modelled as [string]; [str.upper] acts on the ASCII
      letters.
    - A pandas dataframe is a list of column labels together with the rows
      of cells aligned with these labels.  The row index is not modelled,
      so [reset_index(drop=1)] is the identity.
    - [float64] values are idealised as rationals ([Q]); the missing value
      NaN is a cell of its own.  Equalities between costs are therefore the
      exact ones that the floating-point results approximate.
    - A Python exception is [None] in the [option] monad. *)

From Stdlib Require Import List ZArith QArith Qpower String Ascii Bool Lia
  DecimalString.
Import ListNotations.

Local Open Scope string_scope.
Local Open Scope Z_scope.
Local Open Scope list_scope.

(** * The model

    ** Option monad for code that may raise *)

Definition obind {A B} (m : option A) (k : A -> option B) : option B :=
  match m with
  | Some a => k a
  | None => None
  end.

Notation "x <- m ;; k" := (obind m (fun x => k))
  (at level 61, m at next level, right associativity).

Fixpoint mapM {A B} (f : A -> option B) (l : list A) : option (list B) :=
  match l with
  | [] => Some []
  | x :: xs =>
      y <- f x ;;
      ys <- mapM f xs ;;
      Some (y :: ys)
  end.

(** ** Strings *)

Definition upper_ascii (c : ascii) : ascii :=
  let n := nat_of_ascii c in
  if (andb (Nat.leb 97 n) (Nat.leb n 122)) then ascii_of_nat (n - 32) else c.

(** [str.upper()] *)
Fixpoint upper (s : string) : string :=
  match s with
  | EmptyString => EmptyString
  | String c rest => String (upper_ascii c) (upper rest)
  end.

Fixpoint str_in (s : string) (l : list string) : bool :=
  match l with
  | [] => false
  | x :: xs => if String.eqb s x then true else str_in s xs
  end.

(** ** Dataframes *)

Inductive cell : Type :=
| CStr (s : string)
| CInt (z : Z)
| CNum (q : Q)
| CNaN.

Definition row := list cell.

Record DataFrame : Type := mkDF {
  columns : list string;
  rows : list row
}.

(** Numeric reading of a cell: integers are promoted as pandas does. *)
Definition num_of (c : cell) : option Q :=
  match c with
  | CInt z => Some (inject_Z z)
  | CNum q => Some q
  | _ => None
  end.

(** Elementwise [==]; NaN is equal to nothing. *)
Definition cell_eqb (a b : cell) : bool :=
  match a, b with
  | CStr s, CStr t => String.eqb s t
  | CInt x, CInt y => Z.eqb x y
  | CStr _, _ | _, CStr _ => false
  | _, _ =>
      match num_of a, num_of b with
      | Some x, Some y => Qeq_bool x y
      | _, _ => false
      end
  end.

(** Elementwise [<=] on numbers; false on NaN and on strings. *)
Definition cell_leb (a b : cell) : bool :=
  match a, b with
  | CInt x, CInt y => Z.leb x y
  | _, _ =>
      match num_of a, num_of b with
      | Some x, Some y => Qle_bool x y
      | _, _ => false
      end
  end.

Fixpoint col_pos (c : string) (cols : list string) : option nat :=
  match cols with
  | [] => None
  | x :: xs => if String.eqb c x then Some O else option_map S (col_pos c xs)
  end.

(** The cell of row [r] under label [c] ([x.c] or [x["c"]] row by row). *)
Definition get (cols : list string) (r : row) (c : string) : cell :=
  match col_pos c cols with
  | Some i => nth i r CNaN
  | None => CNaN
  end.

Fixpoint replace_nth (i : nat) (v : cell) (r : row) : row :=
  match r, i with
  | [], _ => []
  | _ :: xs, O => v :: xs
  | x :: xs, S j => x :: replace_nth j v xs
  end.

Definition set_col (cols : list string) (r : row) (c : string) (v : cell) : row :=
  match col_pos c cols with
  | Some i => replace_nth i v r
  | None => r ++ [v]
  end.

(** [df.assign(c=f)]: [f] sees the row; an existing column is overwritten
    in place, a new one is appended on the right. *)
Definition assign (c : string) (f : (string -> cell) -> cell) (df : DataFrame)
  : DataFrame :=
  mkDF (if str_in c (columns df) then columns df else columns df ++ [c])
       (map (fun r => set_col (columns df) r c (f (get (columns df) r))) (rows df)).

(** [df.reindex(cols, axis=1)]: labels absent from [df] give NaN. *)
Definition reindex (cols : list string) (df : DataFrame) : DataFrame :=
  mkDF cols (map (fun r => map (get (columns df) r) cols) (rows df)).

(** [df.query(p)] *)
Definition query (p : (string -> cell) -> bool) (df : DataFrame) : DataFrame :=
  mkDF (columns df) (filter (fun r => p (get (columns df) r)) (rows df)).

(** [df.c] as a list of values. *)
Definition column (c : string) (df : DataFrame) : list cell :=
  map (fun r => get (columns df) r c) (rows df).

(** [series.unique()]: first occurrences, in order of appearance. *)
Fixpoint unique_from (seen : list cell) (l : list cell) : list cell :=
  match l with
  | [] => []
  | x :: xs =>
      if existsb (cell_eqb x) seen then unique_from seen xs
      else x :: unique_from (x :: seen) xs
  end.

Definition unique (l : list cell) : list cell := unique_from [] l.

(** [series.values[0]]: raises [IndexError] on an empty selection. *)
Definition first_value (c : string) (df : DataFrame) : option cell :=
  match column c df with
  | [] => None
  | v :: _ => Some v
  end.

Definition union_cols (acc cs : list string) : list string :=
  fold_left (fun a c => if str_in c a then a else a ++ [c]) cs acc.

(** [pd.concat(frames)]: raises [ValueError] on an empty list; the columns
    are the union of the frames' columns in order of first appearance and
    the rows follow frame by frame, with NaN under labels a frame lacks. *)
Definition concat (dfs : list DataFrame) : option DataFrame :=
  match dfs with
  | [] => None
  | _ =>
      let cols := fold_left (fun a d => union_cols a (columns d)) dfs [] in
      Some (mkDF cols
              (flat_map (fun d => map (fun r => map (get (columns d) r) cols) (rows d))
                        dfs))
  end.

(** [left.merge(right, on=key, how="left")] for frames that share no label
    but [key]: each left row is followed by the other cells of every
    matching right row, or by NaN when none matches. *)
Definition merge_left (key : string) (left right : DataFrame) : DataFrame :=
  let other := filter (fun c => negb (String.eqb c key)) (columns right) in
  mkDF (columns left ++ other)
       (flat_map
          (fun r =>
             let ms := filter (fun r' => cell_eqb (get (columns right) r' key)
                                                  (get (columns left) r key))
                              (rows right) in
             match ms with
             | [] => [r ++ map (fun _ => CNaN) other]
             | _ => map (fun r' => r ++ map (get (columns right) r') other) ms
             end)
          (rows left)).

(** [range(start, start + n)] and [range(start, stop, step)] *)
Fixpoint range_from (start step : Z) (n : nat) : list Z :=
  match n with
  | O => []
  | S k => start :: range_from (start + step) step k
  end.

Definition py_range (start stop step : Z) : list Z :=
  range_from start step (Z.to_nat ((stop - start + step - 1) / step)).

(** [itertools.product] of four sequences. *)
Definition product4 {A} (a b c d : list A) : list (A * A * A * A) :=
  flat_map (fun h =>
    flat_map (fun i =>
      flat_map (fun j =>
        map (fun k => (h, i, j, k)) d) c) b) a.

(** ** [create_message_inputs] *)

Definition HORIZON_START : Z := 1960.
Definition HORIZON_END : Z := 2110.

Definition smaller_than (sequence : list Z) (value : Z) : list Z :=
  filter (fun item => item <? value) sequence.

Definition larger_than (sequence : list Z) (value : Z) : list Z :=
  filter (fun item => item >? value) sequence.

Definition seq_years : list Z := py_range HORIZON_START (HORIZON_END + 5) 5.

(** The annual factor [1 - 0.0025] of the fixed-cost trajectory. *)
Definition fom_factor : Q := 1 - (25 # 10000).

(** [init_val * (1 - 0.0025) ** (x.year - y)], row by row. *)
Definition decayed (init_val : cell) (y : Z) (year : cell) : cell :=
  match num_of init_val, year with
  | Some v, CInt yr => CNum (v * fom_factor ^ (yr - y))
  | _, _ => CNaN
  end.

Definition inv_columns : list string :=
  ["scenario_version"; "scenario"; "node_loc"; "technology"; "year_vtg";
   "value"; "unit"].

Definition fom_columns : list string :=
  ["scenario_version"; "scenario"; "node_loc"; "technology"; "year_vtg";
   "year_act"; "value"; "unit"].

Section CreateMessageInputs.

(** The two constants imported from [message_ix_models.tools.costs.config],
    which is not part of the sources at hand. *)
Variables BASE_YEAR LAST_MODEL_YEAR : Z.

Definition hist_years : list Z := smaller_than seq_years (BASE_YEAR - 5).
Definition fut_years : list Z := larger_than seq_years LAST_MODEL_YEAR.

(** The rows of one [(h, i, j, k)] combination. *)
Definition tech_of (df_proj : DataFrame) (g : cell * cell * cell * cell)
  : DataFrame :=
  let '(h, i, j, k) := g in
  query (fun x => cell_eqb (x "scenario_version") h
                  && cell_eqb (x "scenario") i
                  && cell_eqb (x "message_technology") j
                  && cell_eqb (x "region") k) df_proj.

(** The 2020 rows repeated over the historical years, the projected rows,
    and the 2100 rows repeated up to the end of the horizon. *)
Definition costs_tot_of (tech : DataFrame) : option DataFrame :=
  let l_hist :=
    map (fun year =>
           assign "year" (fun _ => CInt year)
                  (query (fun x => cell_eqb (x "year") (CInt 2020)) tech))
        hist_years in
  let l_fut :=
    map (fun year =>
           assign "year" (fun _ => CInt year)
                  (query (fun x => cell_eqb (x "year") (CInt 2100)) tech))
        fut_years in
  costs_hist <- concat l_hist ;;
  costs_fut <- concat l_fut ;;
  concat [costs_hist; tech; costs_fut].

Definition tech_inv_of (costs_tot : DataFrame) : DataFrame :=
  reindex inv_columns
    (assign "node_loc" (fun x => x "region")
    (assign "technology" (fun x => x "message_technology")
    (assign "unit" (fun _ => CStr "USD/kWa")
    (assign "value" (fun x => x "inv_cost")
    (assign "year_vtg" (fun x => x "year") costs_tot))))).

(** The body of the loop over the vintage years [y]. *)
Definition fom_updated_of (costs_tot : DataFrame) (y : Z) : option DataFrame :=
  let fom :=
    assign "year_vtg" (fun _ => CInt y)
      (reindex ["scenario_version"; "scenario"; "message_technology";
                "region"; "year"; "fix_cost"]
         (query (fun x => cell_leb (CInt y) (x "year")) costs_tot)) in
  init_val <-
    (if y <=? 2020
     then first_value "fix_cost"
            (query (fun x => cell_eqb (x "year") (CInt 2020)) fom)
     else first_value "fix_cost"
            (query (fun x => cell_eqb (x "year") (CInt y)) fom)) ;;
  let d :=
    assign "val" (fun x => decayed init_val y (x "year"))
      (mkDF ["year"] (map (fun yr => [CInt yr]) (py_range y 2111 1))) in
  Some
    (reindex fom_columns
       (assign "node_loc" (fun x => x "region")
       (assign "technology" (fun x => x "message_technology")
       (assign "unit" (fun _ => CStr "USD/kWa")
       (assign "year_act" (fun x => x "year")
       (assign "value"
          (fun x => if cell_leb (x "year") (CInt 2020)
                    then x "fix_cost" else x "val")
          (merge_left "year" fom d))))))).

(** [create_message_inputs(df_proj)]: the pair [(msg_inv, msg_fom)], or
    [None] when a [pd.concat] or a [values[0]] raises.  The line printed for
    each combination is not modelled. *)
Definition create_message_inputs (df_proj : DataFrame)
  : option (DataFrame * DataFrame) :=
  let un_vers := unique (column "scenario_version" df_proj) in
  let un_scen := unique (column "scenario" df_proj) in
  let un_tech := unique (column "message_technology" df_proj) in
  let un_reg := unique (column "region" df_proj) in
  per_group <-
    mapM (fun g =>
            let tech := tech_of df_proj g in
            costs_tot <- costs_tot_of tech ;;
            let tech_inv := tech_inv_of costs_tot in
            l_fom_updated <- mapM (fom_updated_of costs_tot) seq_years ;;
            tech_fom <- concat l_fom_updated ;;
            Some (tech_inv, tech_fom))
         (product4 un_vers un_scen un_tech un_reg) ;;
  msg_inv <- concat (map fst per_group) ;;
  msg_fom <- concat (map snd per_group) ;;
  Some (msg_inv, msg_fom).

End CreateMessageInputs.

(** ** Typed projections and the typed reading of [create_message_inputs] *)

(** A record of the cost projection handed to [create_message_inputs]: the
    seven columns the function reads. *)
Record ProjRow : Type := mkProj {
  p_version : string;
  p_scenario : string;
  p_technology : string;
  p_region : string;
  p_year : Z;
  p_inv_cost : Q;
  p_fix_cost : Q
}.

Definition proj_columns : list string :=
  ["scenario_version"; "scenario"; "message_technology"; "region"; "year";
   "inv_cost"; "fix_cost"].

Definition proj_row (p : ProjRow) : row :=
  [CStr (p_version p); CStr (p_scenario p); CStr (p_technology p);
   CStr (p_region p); CInt (p_year p); CNum (p_inv_cost p);
   CNum (p_fix_cost p)].

Definition to_frame (ps : list ProjRow) : DataFrame :=
  mkDF proj_columns (map proj_row ps).

(** A row is aligned with the labels when reading it label by label gives
    it back. *)
Definition aligned (cols : list string) (r : row) : Prop :=
  map (get cols r) cols = r.

Definition set_year (y : Z) (p : ProjRow) : ProjRow :=
  mkProj (p_version p) (p_scenario p) (p_technology p) (p_region p) y
         (p_inv_cost p) (p_fix_cost p).

Definition at_year (y : Z) (l : list ProjRow) : list ProjRow :=
  filter (fun p => p_year p =? y) l.

Definition from_year (y : Z) (l : list ProjRow) : list ProjRow :=
  filter (fun p => y <=? p_year p) l.

Definition nonempty {A} (l : list A) : bool :=
  match l with
  | [] => false
  | _ => true
  end.

Definition in_group (g : cell * cell * cell * cell) (p : ProjRow) : bool :=
  let '(h, i, j, k) := g in
  cell_eqb (CStr (p_version p)) h && cell_eqb (CStr (p_scenario p)) i
  && cell_eqb (CStr (p_technology p)) j && cell_eqb (CStr (p_region p)) k.

Definition groups_of (ps : list ProjRow) : list (cell * cell * cell * cell) :=
  product4 (unique (map (fun p => CStr (p_version p)) ps))
           (unique (map (fun p => CStr (p_scenario p)) ps))
           (unique (map (fun p => CStr (p_technology p)) ps))
           (unique (map (fun p => CStr (p_region p)) ps)).

(** A row of the investment-cost output. *)
Definition inv_row (p : ProjRow) : row :=
  [CStr (p_version p); CStr (p_scenario p); CStr (p_region p);
   CStr (p_technology p); CInt (p_year p); CNum (p_inv_cost p);
   CStr "USD/kWa"].

(** The value of the fixed-cost output for vintage [y], initial value [v]
    and the record [p] of the activity year. *)
Definition fom_value (y : Z) (v : Q) (p : ProjRow) : cell :=
  if p_year p <=? 2020 then CNum (p_fix_cost p)
  else if (y <=? p_year p) && (p_year p <? 2111)
       then CNum (v * fom_factor ^ (p_year p - y))
       else CNaN.

Definition fom_row (y : Z) (v : Q) (p : ProjRow) : row :=
  [CStr (p_version p); CStr (p_scenario p); CStr (p_region p);
   CStr (p_technology p); CInt y; CInt (p_year p); fom_value y v p;
   CStr "USD/kWa"].

(** The year whose fixed cost starts the trajectory of vintage [y]. *)
Definition init_year (y : Z) : Z := if y <=? 2020 then 2020 else y.

Definition init_rows (ct : list ProjRow) (y : Z) : list ProjRow :=
  at_year (init_year y) (from_year y ct).

Definition init_val_of (ct : list ProjRow) (y : Z) : Q :=
  match init_rows ct y with
  | [] => 0
  | p :: _ => p_fix_cost p
  end.

(** The frame [fom] of vintage [y], before the merge: the rows of
    [costs_tot] from [y] on; and the rows of the frame [d]. *)
Definition fom_in_columns : list string :=
  ["scenario_version"; "scenario"; "message_technology"; "region"; "year";
   "fix_cost"; "year_vtg"].

Definition fom_in_row (y : Z) (p : ProjRow) : row :=
  [CStr (p_version p); CStr (p_scenario p); CStr (p_technology p);
   CStr (p_region p); CInt (p_year p); CNum (p_fix_cost p); CInt y].

Definition d_row (init_val : cell) (y yr : Z) : row :=
  [CInt yr; decayed init_val y (CInt yr)].

(** The lists below read the loop of [create_message_inputs] on typed
    records.  [create_message_inputs_frame] shows that the frames computed
    by the function are their images. *)
Section Typed.
Variables BASE_YEAR LAST_MODEL_YEAR : Z.

(** [costs_tot] of a group whose projected records are [tech]: the
    horizon-extended table of the group. *)
Definition extend (tech : list ProjRow) : list ProjRow :=
  flat_map (fun y => map (set_year y) (at_year 2020 tech)) (hist_years BASE_YEAR)
  ++ tech
  ++ flat_map (fun y => map (set_year y) (at_year 2100 tech))
              (fut_years LAST_MODEL_YEAR).

Definition group_total (ps : list ProjRow) (g : cell * cell * cell * cell)
  : list ProjRow :=
  extend (filter (in_group g) ps).

Definition group_fom (ct : list ProjRow) : list row :=
  flat_map (fun y => map (fom_row y (init_val_of ct y)) (from_year y ct)) seq_years.

(** The inputs on which the group's loop body raises nothing. *)
Definition group_ok (ct : list ProjRow) : bool :=
  nonempty (hist_years BASE_YEAR) && nonempty (fut_years LAST_MODEL_YEAR)
  && forallb (fun y => nonempty (init_rows ct y)) seq_years.

Definition msg_inv_rows (ps : list ProjRow) : list row :=
  map inv_row (flat_map (group_total ps) (groups_of ps)).

Definition msg_fom_rows (ps : list ProjRow) : list row :=
  flat_map (fun g => group_fom (group_total ps g)) (groups_of ps).

(** The projections on which [create_message_inputs] returns. *)
Definition returns (ps : list ProjRow) : bool :=
  nonempty (groups_of ps)
  && forallb (fun g => group_ok (group_total ps g)) (groups_of ps).

End Typed.

(** Where a record of [costs_tot] comes from. *)
Inductive origin (BASE_YEAR LAST_MODEL_YEAR : Z) (tech : list ProjRow)
  : ProjRow -> Prop :=
| from_hist q y :
    In q tech -> p_year q = 2020 -> In y seq_years -> y < BASE_YEAR - 5 ->
    origin BASE_YEAR LAST_MODEL_YEAR tech (set_year y q)
| from_tech q :
    In q tech -> origin BASE_YEAR LAST_MODEL_YEAR tech q
| from_fut q y :
    In q tech -> p_year q = 2100 -> In y seq_years -> LAST_MODEL_YEAR < y ->
    origin BASE_YEAR LAST_MODEL_YEAR tech (set_year y q).

(** ** Vocabulary of the statements *)

(** The key cells of an output row are those of the record [p]. *)
Definition same_keys (cols : list string) (r : row) (p : ProjRow) : Prop :=
  get cols r "scenario_version" = CStr (p_version p)
  /\ get cols r "scenario" = CStr (p_scenario p)
  /\ get cols r "technology" = CStr (p_technology p)
  /\ get cols r "node_loc" = CStr (p_region p).

(** The base year is not after the last model year, and the projection has
    no record before the base year other than at the anchor year 2020. *)
Definition no_record_before_base_year (BASE_YEAR LAST_MODEL_YEAR : Z)
           (ps : list ProjRow) : bool :=
  (BASE_YEAR <=? LAST_MODEL_YEAR)
  && forallb (fun p => (p_year p =? 2020) || (BASE_YEAR <=? p_year p)) ps.

(** The base year is not after the last model year, and the projection has
    no record after the last model year. *)
Definition no_record_after_last_model_year (BASE_YEAR LAST_MODEL_YEAR : Z)
           (ps : list ProjRow) : bool :=
  (BASE_YEAR <=? LAST_MODEL_YEAR)
  && forallb (fun p => p_year p <=? LAST_MODEL_YEAR) ps.

(** The claim on the years before the base year as it is written: a row of
    the investment-cost frame before the base year has the investment cost
    of the record of its combination at 2020. *)
Definition repeats_anchor_value (BASE_YEAR : Z) (ps : list ProjRow)
           (inv : DataFrame) : Prop :=
  forall r y p,
    In r (rows inv) -> get (columns inv) r "year_vtg" = CInt y ->
    y < BASE_YEAR ->
    In p ps -> p_year p = 2020 -> same_keys (columns inv) r p ->
    cell_eqb (get (columns inv) r "value") (CNum (p_inv_cost p)) = true.

Definition nonneg_costs (ps : list ProjRow) : bool :=
  forallb (fun p => Qle_bool 0 (p_inv_cost p) && Qle_bool 0 (p_fix_cost p)) ps.

(** ** A sample projection *)

Definition sample_record (y : Z) : ProjRow :=
  mkProj "updated" "SSP2" "coal_ppl" "R12_NAM" y
         (inject_Z (3000 - 10 * (y - 2020))) (inject_Z (100 - (y - 2020) / 5)).

(** One technology in one region, every fifth year from 2020 to 2100. *)
Definition sample_projection : list ProjRow :=
  map sample_record (py_range 2020 2105 5).

Definition sample_key : cell * cell * cell * cell :=
  (CStr "updated", CStr "SSP2", CStr "coal_ppl", CStr "R12_NAM").

Definition sample_output (BASE_YEAR : Z) : DataFrame * DataFrame :=
  (mkDF inv_columns (msg_inv_rows BASE_YEAR 2100 sample_projection),
   mkDF fom_columns (msg_fom_rows BASE_YEAR 2100 sample_projection)).

(** The fixed-cost row of the sample for vintage [v] and the record [p] of
    the activity year. *)
Definition sample_fom_row (BASE_YEAR v : Z) (p : ProjRow) : row :=
  fom_row v (init_val_of (group_total BASE_YEAR 2100 sample_projection sample_key) v)
          p.

(** The combination a record belongs to. *)
Definition key_of (p : ProjRow) : cell * cell * cell * cell :=
  (CStr (p_version p), CStr (p_scenario p), CStr (p_technology p),
   CStr (p_region p)).

(** The claim on years after the last model year as it is written, for a
    frame whose year is under [year_col]: a row after 2100 has the value
    of the row at 2100 that agrees with it under [key_cols]. *)
Definition repeats_final_value (year_col : string) (key_cols : list string)
           (df : DataFrame) : Prop :=
  forall r r0 a,
    In r (rows df) -> In r0 (rows df) ->
    get (columns df) r year_col = CInt a -> 2100 < a ->
    get (columns df) r0 year_col = CInt 2100 ->
    (forall c, In c key_cols -> get (columns df) r c = get (columns df) r0 c) ->
    cell_eqb (get (columns df) r "value") (get (columns df) r0 "value") = true.

Definition group_cols : list string :=
  ["scenario_version"; "scenario"; "node_loc"; "technology"].

(** The claim on the fixed-cost trajectory as it is written, for the base
    year [b]: after [b] the value is the fixed cost of the record at [b]
    decayed over the years since [b]. *)
Definition decays_from_base_year (b : Z) (ps : list ProjRow) (fom : DataFrame)
  : Prop :=
  forall r a p,
    In r (rows fom) -> get (columns fom) r "year_act" = CInt a -> b < a ->
    In p ps -> p_year p = b -> same_keys (columns fom) r p ->
    cell_eqb (get (columns fom) r "value")
             (CNum (p_fix_cost p * fom_factor ^ (a - b))) = true.

(** ** [get_cost_projections] *)

(** What the entry point returns: the message or the projection. *)
Inductive returned : Type :=
| ErrorString (s : string)
| Projection (df : DataFrame).

(** [str(n)] *)
Definition str_of_int (n : Z) : string := NilZero.string_of_int (Z.to_int n).

Definition valid_nodes : list string := ["R11"; "R12"; "R20"].

Definition invalid_node_message : string :=
  "Please select a valid spatial resolution: R11, R12, or R20".

(** The reference region after the defaults are set.  The three tests on
    [node_up] follow one another as in the source. *)
Definition resolve_ref_region (node_up : string) (sel_ref_region : option string)
  : option string :=
  match sel_ref_region with
  | None =>
      let r := None in
      let r := if String.eqb node_up "R11" then Some "R11_NAM" else r in
      let r := if String.eqb node_up "R12" then Some "R12_NAM" else r in
      let r := if String.eqb node_up "R20" then Some "R20_NAM" else r in
      r
  | Some given => Some (upper given)
  end.

Section GetCostProjections.

(** The stages of the pipeline, defined in [weo.py], [learning.py], [gdp.py]
    and [splines.py], which are not part of the sources at hand.  [None]
    stands for an exception raised by a stage. *)
Variable get_weo_region_differentiated_costs :
  string -> string -> Z -> option DataFrame.
Variable project_ref_region_inv_costs_using_learning_rates :
  DataFrame -> string -> string -> Z -> option DataFrame.
Variable calculate_gdp_adjusted_region_cost_ratios :
  DataFrame -> string -> string -> Z -> option DataFrame.
Variable project_all_inv_costs :
  DataFrame -> DataFrame -> DataFrame -> Z -> string -> string -> option DataFrame.
Variable get_final_inv_and_fom_costs : DataFrame -> string -> option DataFrame.

(** The lines printed, and the value returned ([None] when an exception
    propagates).  The arguments are all explicit: the defaults of the
    source are [sel_node="r12"], no reference region, [BASE_YEAR],
    ["updated"], ["all"], ["convergence"], [2050] and ["message"]. *)
Definition get_cost_projections
           (sel_node : string) (sel_ref_region : option string)
           (sel_base_year : Z) (sel_scenario_version sel_scenario : string)
           (sel_method : string) (sel_convergence_year : Z) (sel_format : string)
  : list string * option returned :=
  let node_up := upper sel_node in
  if negb (str_in node_up valid_nodes)
  then ([], Some (ErrorString invalid_node_message))
  else
    match resolve_ref_region node_up sel_ref_region with
    | None => ([("Selected node: " ++ node_up)%string], None)
    | Some ref_region =>
        ([("Selected node: " ++ node_up)%string;
          ("Selected reference region: " ++ ref_region)%string;
          ("Selected base year: " ++ str_of_int sel_base_year)%string;
          ("Selected scenario version: " ++ sel_scenario_version)%string;
          ("Selected scenario: " ++ sel_scenario)%string],
         df_region_diff <-
           get_weo_region_differentiated_costs sel_node ref_region sel_base_year ;;
         df_ref_reg_learning <-
           project_ref_region_inv_costs_using_learning_rates
             df_region_diff sel_node ref_region sel_base_year ;;
         df_adj_cost_ratios <-
           calculate_gdp_adjusted_region_cost_ratios
             df_region_diff sel_node ref_region sel_base_year ;;
         df_all_inv <-
           project_all_inv_costs df_region_diff df_ref_reg_learning
             df_adj_cost_ratios sel_convergence_year sel_scenario_version
             sel_scenario ;;
         df_inv_fom <- get_final_inv_and_fom_costs df_all_inv sel_method ;;
         Some (Projection df_inv_fom))
    end.

End GetCostProjections.

(** ** Stages of the pipeline that the sources at hand do not hold *)

(** Modelled from the spec: [project_all_inv_costs] of [splines.py], which
    is not part of the sources at hand.  The blender produces the
    investment-cost trajectory of every (region, technology,
    scenario-version, scenario) combination, and the scenario selector is
    "a string, or [all] to retain every scenario".  The blending is the
    parameter [blend]; the selector retains the records of the scenario. *)
Definition project_all_inv_costs_spec
           (blend : DataFrame -> DataFrame -> DataFrame -> Z -> string
                    -> option DataFrame)
           (df_region_diff df_ref_reg_learning df_adj_cost_ratios : DataFrame)
           (input_convergence_year : Z)
           (input_scenario_version input_scenario : string)
  : option DataFrame :=
  df <- blend df_region_diff df_ref_reg_learning df_adj_cost_ratios
              input_convergence_year input_scenario_version ;;
  Some (if String.eqb input_scenario "all" then df
        else query (fun x => cell_eqb (x "scenario") (CStr input_scenario)) df).

(** Modelled from the spec: [get_final_inv_and_fom_costs] of [splines.py],
    which is not part of the sources at hand.  The final formatter surfaces,
    record by record, the trajectory chosen by the method selector and
    derives the fixed cost from it; [surface] gives the record produced
    from a record of the blended trajectory. *)
Definition get_final_inv_and_fom_costs_spec
           (final_columns : list string)
           (surface : string -> (string -> cell) -> row)
           (df_all_inv : DataFrame) (input_method : string)
  : option DataFrame :=
  Some (mkDF final_columns
          (map (fun r => surface input_method (get (columns df_all_inv) r))
               (rows df_all_inv))).

(** Modelled from the spec: the trajectory computed by
    [project_ref_region_inv_costs_using_learning_rates] of [learning.py],
    which is not part of the sources at hand.  The learning rate is the
    "fractional annual cost reduction applied to extrapolate investment
    cost over time", from the base-year cost of the reference region. *)
Definition learning_cost (base_cost rate : Q) (base_year year : Z) : Q :=
  base_cost * (1 - rate) ^ (year - base_year).

(** The base-year investment cost of a technology in the reference region,
    and a record of the projected trajectory. *)
Record RefCost : Type := mkRef {
  r_technology : string;
  r_inv_cost : Q
}.

Record LearningRow : Type := mkLearning {
  l_technology : string;
  l_year : Z;
  l_inv_cost : Q
}.

(** Modelled from the spec: the projector over the technologies of the
    reference region and the years of the model horizon.  What happens to
    a technology without a cost-reduction rate is the parameter
    [without_rate]. *)
Definition project_ref_region_inv_costs_using_learning_rates_spec
           (rates : string -> option Q)
           (without_rate : RefCost -> list LearningRow)
           (base_year last_year : Z) (ref : list RefCost)
  : list LearningRow :=
  flat_map
    (fun t =>
       match rates (r_technology t) with
       | Some rate =>
           map (fun y => mkLearning (r_technology t) y
                           (learning_cost (r_inv_cost t) rate base_year y))
               (py_range base_year (last_year + 1) 1)
       | None => without_rate t
       end)
    ref.

(** The second half of the claim on the reference region as it is written:
    a given region is the one used. *)
Definition uses_given_region : Prop :=
  forall node_up given, resolve_ref_region node_up (Some given) = Some given.

(** A blended trajectory with two scenarios. *)
Definition sample_scenarios : list ProjRow :=
  [mkProj "updated" "SSP1" "coal_ppl" "R12_NAM" 2020 3000 100;
   mkProj "updated" "SSP2" "coal_ppl" "R12_NAM" 2020 3000 100;
   mkProj "updated" "SSP2" "coal_ppl" "R12_NAM" 2025 2900 99].

Definition sample_pipeline (sel_node : string) (sel_ref_region : option string)
           (sel_scenario : string) : list string * option returned :=
  get_cost_projections
    (fun _ _ _ => Some (to_frame sample_scenarios))
    (fun df _ _ _ => Some df)
    (fun df _ _ _ => Some df)
    (project_all_inv_costs_spec (fun df _ _ _ _ => Some df))
    (get_final_inv_and_fom_costs_spec proj_columns (fun _ x => map x proj_columns))
    sel_node sel_ref_region 2021 "updated" sel_scenario "convergence" 2050
    "message".

(** ** Further sample projections *)

(** The sample with one more record, after the end of the horizon. *)
Definition sample_beyond : list ProjRow :=
  sample_projection ++ [sample_record 2115].

(** The sample with one more record, before the base year. *)
Definition sample_early : list ProjRow :=
  sample_record 2015 :: sample_projection.

(** Two technologies, each in a region of its own. *)
Definition sample_gas_record (y : Z) : ProjRow :=
  mkProj "updated" "SSP2" "gas_ppl" "R12_WEU" y 1000 30.

Definition sample_two_regions : list ProjRow :=
  sample_projection ++ map sample_gas_record (py_range 2020 2105 5).

(** ** [add_data] of [model/water/data/__init__.py] *)

(** The functions that generate the data, imported from the sibling
    modules. *)
Inductive data_function : Type :=
| add_water_supply
| cool_tech
| non_cooling_tec
| add_sectoral_demands
| add_water_availability
| add_irrigation_demand
| add_infrastructure_techs
| add_desalination
| add_e_flow
| add_irr_structure.

(** [func.__name__] *)
Definition function_name (func : data_function) : string :=
  match func with
  | add_water_supply => "add_water_supply"
  | cool_tech => "cool_tech"
  | non_cooling_tec => "non_cooling_tec"
  | add_sectoral_demands => "add_sectoral_demands"
  | add_water_availability => "add_water_availability"
  | add_irrigation_demand => "add_irrigation_demand"
  | add_infrastructure_techs => "add_infrastructure_techs"
  | add_desalination => "add_desalination"
  | add_e_flow => "add_e_flow"
  | add_irr_structure => "add_irr_structure"
  end.

Definition DATA_FUNCTIONS : list data_function :=
  [add_water_supply; cool_tech; non_cooling_tec; add_sectoral_demands;
   add_water_availability; add_irrigation_demand; add_infrastructure_techs;
   add_desalination; add_e_flow; add_irr_structure].

Definition DATA_FUNCTIONS_COUNTRY : list data_function :=
  [add_water_supply; cool_tech; non_cooling_tec; add_sectoral_demands;
   add_water_availability; add_irrigation_demand; add_infrastructure_techs;
   add_desalination; add_e_flow].

(** The message logged before a function is called. *)
Definition from_message (func : data_function) : string :=
  ("from " ++ function_name func ++ "()")%string.

Section AddData.

(** The scenario and the context are objects that the calls may change in
    place; [World] is the state of both.  The operations on them come from
    [message_ix_models], which is not part of the sources at hand: reading
    the scenario information, setting an item of the context, reading the
    attributes [nexus_set] and [type_reg] of the context (which may raise),
    calling a data function on the context and adding its result to the
    scenario.  A call gives the state it leaves and its result, [None] or
    [false] when it raised. *)
Variables World Info Data : Type.
Variable ScenarioInfo : World -> option Info.
Variable set_item : World -> string -> Info -> World.
Variable nexus_set : World -> option string.
Variable type_reg : World -> option string.
Variable call : data_function -> World -> World * option Data.
Variable add_par_data : World -> Data -> bool -> World * bool.

(** The loop over [data_funcs]: the state reached, the lines logged and
    whether the loop ran to its end. *)
Fixpoint run_data_funcs (dry_run : bool) (data_funcs : list data_function)
         (w : World) (log : list string) : World * list string * bool :=
  match data_funcs with
  | [] => (w, log, true)
  | func :: rest =>
      let log := log ++ [from_message func] in
      let '(w, data) := call func w in
      match data with
      | None => (w, log, false)
      | Some d =>
          let '(w, added) := add_par_data w d dry_run in
          if added then run_data_funcs dry_run rest w log else (w, log, false)
      end
  end.

(** The conditional expression that chooses [data_funcs]; [type_reg] is
    read only when [nexus_set] is not ["cooling"]. *)
Definition select_data_funcs (w : World) : option (list data_function) :=
  ns <- nexus_set w ;;
  if String.eqb ns "cooling"
  then Some [add_water_supply; cool_tech; non_cooling_tec]
  else
    tr <- type_reg w ;;
    Some (if String.eqb tr "global" then DATA_FUNCTIONS
          else DATA_FUNCTIONS_COUNTRY).

(** [add_data(scenario, context, dry_run)]: the state it leaves, the lines
    logged and whether it returned. *)
Definition add_data (w : World) (dry_run : bool) : World * list string * bool :=
  match ScenarioInfo w with
  | None => (w, [], false)
  | Some info =>
      let w := set_item w "water build info" info in
      match select_data_funcs w with
      | None => (w, [], false)
      | Some data_funcs =>
          let '(w, log, completed) := run_data_funcs dry_run data_funcs w [] in
          if completed then (w, log ++ ["done"], true) else (w, log, false)
      end
  end.

End AddData.

(** A sample world for [add_data]: the state is the list of the data added
    to the scenario, a data function returns its own name and raises when
    it is [failing], and nothing is added in a dry run. *)
Definition sample_call (failing : option data_function) (func : data_function)
           (w : list string) : list string * option string :=
  match failing with
  | Some f =>
      if String.eqb (function_name f) (function_name func) then (w, None)
      else (w, Some (function_name func))
  | None => (w, Some (function_name func))
  end.

Definition sample_add_par_data (w : list string) (d : string) (dry_run : bool)
  : list string * bool :=
  (if dry_run then w else w ++ [d], true).

Definition sample_build (nexus : string) (type_reg : option string)
           (failing : option data_function) (dry_run : bool)
  : list string * list string * bool :=
  add_data (list string) nat string
           (fun w => Some (List.length w)) (fun w _ _ => w)
           (fun _ => Some nexus) (fun _ => type_reg)
           (sample_call failing) sample_add_par_data [] dry_run.

(** * Proofs *)

(** ** Lists, the option monad and frames *)

Section ListFacts.
Context {A B C : Type}.

Lemma filter_map_swap (p : B -> bool) (f : A -> B) (l : list A) :
  filter p (map f l) = map f (filter (fun x => p (f x)) l).
Proof.
  induction l as [|x l IH]; simpl; [reflexivity|].
  destruct (p (f x)); simpl; now rewrite IH.
Qed.

Lemma flat_map_map_out (f : B -> C) (L : A -> list B) (l : list A) :
  flat_map (fun a => map f (L a)) l = map f (flat_map L l).
Proof.
  induction l as [|x l IH]; simpl; [reflexivity|].
  now rewrite map_app, IH.
Qed.

Lemma flat_map_single (f : A -> list B) (g : A -> B) (l : list A) :
  (forall x, In x l -> f x = [g x]) -> flat_map f l = map g l.
Proof.
  induction l as [|x l IH]; simpl; intros H; [reflexivity|].
  rewrite (H x) by now left. simpl. f_equal. apply IH. intros; apply H; now right.
Qed.

Lemma flat_map_ext_in (f g : A -> list B) (l : list A) :
  (forall x, In x l -> f x = g x) -> flat_map f l = flat_map g l.
Proof.
  induction l as [|x l IH]; simpl; intros H; [reflexivity|].
  rewrite (H x) by now left. f_equal. apply IH. intros; apply H; now right.
Qed.

Lemma flat_map_of_map (f : B -> list C) (g : A -> B) (l : list A) :
  flat_map f (map g l) = flat_map (fun x => f (g x)) l.
Proof.
  induction l as [|x l IH]; simpl; [reflexivity|]. now rewrite IH.
Qed.

Lemma mapM_if (f : A -> option B) (ok : A -> bool) (g : A -> B) (l : list A) :
  (forall x, In x l -> f x = if ok x then Some (g x) else None) ->
  mapM f l = if forallb ok l then Some (map g l) else None.
Proof.
  induction l as [|x l IH]; simpl; intros H; [reflexivity|].
  rewrite (H x) by now left.
  destruct (ok x); simpl; [|reflexivity].
  rewrite IH by (intros; apply H; now right).
  now destruct (forallb ok l).
Qed.
End ListFacts.

Lemma str_in_In (c : string) (l : list string) : In c l -> str_in c l = true.
Proof.
  induction l as [|x l IH]; simpl; [tauto|].
  intros [->|H]; [now rewrite String.eqb_refl|].
  destruct (String.eqb c x); auto.
Qed.

Lemma union_cols_absorb (acc cs : list string) :
  (forall c, In c cs -> In c acc) -> union_cols acc cs = acc.
Proof.
  unfold union_cols. induction cs as [|c cs IH]; simpl; intros H; [reflexivity|].
  rewrite str_in_In by (apply H; now left). apply IH. intros; apply H; now right.
Qed.

Lemma concat_same (cols : list string) (dfs : list DataFrame) :
  dfs <> [] ->
  union_cols [] cols = cols ->
  (forall d, In d dfs -> columns d = cols /\ Forall (aligned cols) (rows d)) ->
  concat dfs = Some (mkDF cols (flat_map rows dfs)).
Proof.
  intros Hne Hu Hall. destruct dfs as [|d0 ds]; [congruence|].
  unfold concat.
  assert (Hcols : fold_left (fun a d => union_cols a (columns d)) (d0 :: ds) [] = cols).
  { simpl. rewrite (proj1 (Hall d0 (or_introl eq_refl))), Hu.
    assert (Hds : forall d, In d ds -> columns d = cols)
      by (intros d Hd; apply Hall; now right).
    clear -Hds. induction ds as [|d ds IH]; simpl; [reflexivity|].
    rewrite (Hds d) by now left.
    rewrite union_cols_absorb by auto. apply IH. intros; apply Hds; now right. }
  rewrite Hcols. do 2 f_equal.
  apply flat_map_ext_in. intros d Hd. destruct (Hall d Hd) as [-> Hal].
  rewrite <- (map_id (rows d)) at 2. apply map_ext_in. intros r Hr.
  rewrite Forall_forall in Hal. now apply Hal.
Qed.

Lemma concat_frames {A} (cols : list string) (R : A -> list row) (l : list A) :
  l <> [] ->
  union_cols [] cols = cols ->
  (forall a, In a l -> Forall (aligned cols) (R a)) ->
  concat (map (fun a => mkDF cols (R a)) l) = Some (mkDF cols (flat_map R l)).
Proof.
  intros Hne Hu Hal.
  rewrite (concat_same cols).
  - do 2 f_equal. now rewrite flat_map_of_map.
  - destruct l; simpl; congruence.
  - exact Hu.
  - intros d Hd. apply in_map_iff in Hd as (a & <- & Ha). simpl. auto.
Qed.

(** Concatenation of frames that are images of typed lists. *)
Lemma concat_mapped {A B} (cols : list string) (f : B -> row) (L : A -> list B)
      (l : list A) :
  l <> [] ->
  union_cols [] cols = cols ->
  (forall x, aligned cols (f x)) ->
  concat (map (fun a => mkDF cols (map f (L a))) l)
  = Some (mkDF cols (map f (flat_map L l))).
Proof.
  intros Hne Hu Hal.
  rewrite (concat_same cols).
  - do 2 f_equal. rewrite flat_map_concat_map, map_map. simpl.
    rewrite <- flat_map_concat_map. apply flat_map_map_out.
  - destruct l; simpl; congruence.
  - exact Hu.
  - intros d Hd. apply in_map_iff in Hd as (a & <- & _). simpl. split; [reflexivity|].
    apply Forall_forall. intros r Hr. apply in_map_iff in Hr as (x & <- & _). apply Hal.
Qed.

(** Case analysis on the integer comparisons of a goal. *)
Ltac zcases :=
  repeat match goal with
    | |- context [?a <=? ?b] => destruct (Z.leb_spec a b)
    | |- context [?a <? ?b] => destruct (Z.ltb_spec a b)
    | |- context [?a =? ?b] => destruct (Z.eqb_spec a b)
    | |- context [?a >? ?b] => rewrite (Z.gtb_ltb a b)
    end;
  simpl; try reflexivity; try lia.

Lemma range_from_filter_eq (a start : Z) (n : nat) :
  filter (fun yr => yr =? a) (range_from start 1 n)
  = if (start <=? a) && (a <? start + Z.of_nat n) then [a] else [].
Proof.
  revert start. induction n as [|n IH]; intros start.
  - simpl. zcases.
  - cbn [range_from filter]. rewrite IH.
    replace (start + 1 + Z.of_nat n) with (start + Z.of_nat (S n)) by lia.
    zcases. subst. reflexivity.
Qed.

Lemma py_range_filter_eq (a y stop : Z) :
  filter (fun yr => yr =? a) (py_range y stop 1)
  = if (y <=? a) && (a <? stop) then [a] else [].
Proof.
  unfold py_range. rewrite range_from_filter_eq.
  replace (stop - y + 1 - 1) with (stop - y) by lia. rewrite Z.div_1_r.
  zcases.
Qed.

Section FrameImages.
Context {A : Type} (cols : list string) (f : A -> row) (l : list A).

Lemma query_image (p : (string -> cell) -> bool) :
  query p (mkDF cols (map f l))
  = mkDF cols (map f (filter (fun x => p (get cols (f x))) l)).
Proof. unfold query; simpl. now rewrite filter_map_swap. Qed.

Lemma assign_image (c : string) (g : (string -> cell) -> cell) :
  assign c g (mkDF cols (map f l))
  = mkDF (if str_in c cols then cols else cols ++ [c])
         (map (fun x => set_col cols (f x) c (g (get cols (f x)))) l).
Proof. unfold assign; simpl. now rewrite map_map. Qed.

Lemma reindex_image (cs : list string) :
  reindex cs (mkDF cols (map f l))
  = mkDF cs (map (fun x => map (get cols (f x)) cs) l).
Proof. unfold reindex; simpl. now rewrite map_map. Qed.

Lemma first_value_image (c : string) :
  first_value c (mkDF cols (map f l))
  = match l with
    | [] => None
    | x :: _ => Some (get cols (f x) c)
    end.
Proof. unfold first_value, column; simpl. now destruct l. Qed.
End FrameImages.

(** Rewrites a pipeline of frame operations over an image into one image;
    the row functions are then compared by evaluation. *)
Ltac frame_image :=
  repeat (rewrite ?query_image, ?assign_image, ?reindex_image; cbn [str_in String.eqb Ascii.eqb Bool.eqb app]).

(** ** Refinement: the frames computed are the images of the typed lists *)

Lemma proj_row_aligned (p : ProjRow) : aligned proj_columns (proj_row p).
Proof. reflexivity. Qed.

Lemma fom_row_aligned (y : Z) (v : Q) (p : ProjRow) :
  aligned fom_columns (fom_row y v p).
Proof. reflexivity. Qed.

Lemma tech_of_frame (ps : list ProjRow) (g : cell * cell * cell * cell) :
  tech_of (to_frame ps) g = to_frame (filter (in_group g) ps).
Proof.
  destruct g as [[[h i] j] k]. unfold tech_of, to_frame. rewrite query_image.
  reflexivity.
Qed.

Lemma repeat_year_frame (y0 year : Z) (tech : list ProjRow) :
  assign "year" (fun _ => CInt year)
    (query (fun x => cell_eqb (x "year") (CInt y0)) (to_frame tech))
  = mkDF proj_columns (map proj_row (map (set_year year) (at_year y0 tech))).
Proof.
  unfold to_frame. rewrite query_image, assign_image, map_map. reflexivity.
Qed.

Section Refinement.
Variables BASE_YEAR LAST_MODEL_YEAR : Z.

Lemma costs_tot_frame (tech : list ProjRow) :
  costs_tot_of BASE_YEAR LAST_MODEL_YEAR (to_frame tech)
  = if nonempty (hist_years BASE_YEAR) && nonempty (fut_years LAST_MODEL_YEAR)
    then Some (to_frame (extend BASE_YEAR LAST_MODEL_YEAR tech))
    else None.
Proof.
  unfold costs_tot_of.
  rewrite (map_ext _ _ (fun y => repeat_year_frame 2020 y tech)).
  rewrite (map_ext _ _ (fun y => repeat_year_frame 2100 y tech)).
  destruct (hist_years BASE_YEAR) as [|h hs] eqn:Eh; [reflexivity|].
  rewrite (concat_mapped proj_columns proj_row
             (fun y => map (set_year y) (at_year 2020 tech)))
    by (discriminate || reflexivity || exact proj_row_aligned).
  cbn [obind nonempty andb].
  destruct (fut_years LAST_MODEL_YEAR) as [|u us] eqn:Eu; [reflexivity|].
  rewrite (concat_mapped proj_columns proj_row
             (fun y => map (set_year y) (at_year 2100 tech)))
    by (discriminate || reflexivity || exact proj_row_aligned).
  cbn [obind nonempty].
  unfold extend. rewrite Eh, Eu.
  set (X1 := flat_map _ (h :: hs)). set (X3 := flat_map _ (u :: us)).
  change (concat (map (fun a => mkDF proj_columns (map proj_row a)) [X1; tech; X3])
          = Some (to_frame (X1 ++ tech ++ X3))).
  rewrite (concat_mapped proj_columns proj_row (fun a => a) [X1; tech; X3])
    by (discriminate || reflexivity || exact proj_row_aligned).
  simpl. now rewrite app_nil_r.
Qed.

Lemma tech_inv_frame (ct : list ProjRow) :
  tech_inv_of (to_frame ct) = mkDF inv_columns (map inv_row ct).
Proof. unfold tech_inv_of, to_frame. frame_image. reflexivity. Qed.


Lemma merge_decay (init_val : cell) (y : Z) (l : list ProjRow) :
  merge_left "year" (mkDF fom_in_columns (map (fom_in_row y) l))
    (mkDF ["year"; "val"] (map (d_row init_val y) (py_range y 2111 1)))
  = mkDF (fom_in_columns ++ ["val"])
      (map (fun p => fom_in_row y p
                     ++ [if (y <=? p_year p) && (p_year p <? 2111)
                         then decayed init_val y (CInt (p_year p)) else CNaN]) l).
Proof.
  unfold merge_left. cbn [columns rows]. f_equal.
  rewrite flat_map_of_map. apply flat_map_single. intros p _.
  rewrite filter_map_swap.
  change (filter _ (py_range y 2111 1))
    with (filter (fun yr => yr =? p_year p) (py_range y 2111 1)).
  rewrite py_range_filter_eq.
  destruct ((y <=? p_year p) && (p_year p <? 2111)); reflexivity.
Qed.

Lemma fom_updated_frame (ct : list ProjRow) (y : Z) :
  fom_updated_of (to_frame ct) y
  = if nonempty (init_rows ct y)
    then Some (mkDF fom_columns
                 (map (fom_row y (init_val_of ct y)) (from_year y ct)))
    else None.
Proof.
  unfold fom_updated_of, to_frame.
  assert (Hfom :
    assign "year_vtg" (fun _ => CInt y)
      (reindex ["scenario_version"; "scenario"; "message_technology";
                "region"; "year"; "fix_cost"]
         (query (fun x => cell_leb (CInt y) (x "year"))
            (mkDF proj_columns (map proj_row ct))))
    = mkDF fom_in_columns (map (fom_in_row y) (from_year y ct))).
  { frame_image. reflexivity. }
  rewrite Hfom. clear Hfom.
  assert (Hinit :
    (if y <=? 2020
     then first_value "fix_cost"
            (query (fun x => cell_eqb (x "year") (CInt 2020))
               (mkDF fom_in_columns (map (fom_in_row y) (from_year y ct))))
     else first_value "fix_cost"
            (query (fun x => cell_eqb (x "year") (CInt y))
               (mkDF fom_in_columns (map (fom_in_row y) (from_year y ct)))))
    = match init_rows ct y with
      | [] => None
      | p :: _ => Some (CNum (p_fix_cost p))
      end).
  { unfold init_rows, init_year.
    destruct (y <=? 2020); rewrite query_image, first_value_image; reflexivity. }
  rewrite Hinit. clear Hinit. unfold init_val_of.
  destruct (init_rows ct y) as [|p0 rest]; [reflexivity|].
  cbn [obind nonempty].
  assert (Hd :
    assign "val" (fun x => decayed (CNum (p_fix_cost p0)) y (x "year"))
      (mkDF ["year"] (map (fun yr => [CInt yr]) (py_range y 2111 1)))
    = mkDF ["year"; "val"]
        (map (d_row (CNum (p_fix_cost p0)) y) (py_range y 2111 1))).
  { frame_image. reflexivity. }
  rewrite Hd, merge_decay. clear Hd. f_equal.
  frame_image. reflexivity.
Qed.

Lemma group_body_frame (ps : list ProjRow) (g : cell * cell * cell * cell) :
  (costs_tot <- costs_tot_of BASE_YEAR LAST_MODEL_YEAR (tech_of (to_frame ps) g) ;;
   l_fom_updated <- mapM (fom_updated_of costs_tot) seq_years ;;
   tech_fom <- concat l_fom_updated ;;
   Some (tech_inv_of costs_tot, tech_fom))
  = let ct := group_total BASE_YEAR LAST_MODEL_YEAR ps g in
    if group_ok BASE_YEAR LAST_MODEL_YEAR ct
    then Some (mkDF inv_columns (map inv_row ct), mkDF fom_columns (group_fom ct))
    else None.
Proof.
  cbv zeta. unfold group_ok. rewrite tech_of_frame, costs_tot_frame.
  fold (group_total BASE_YEAR LAST_MODEL_YEAR ps g).
  set (ct := group_total BASE_YEAR LAST_MODEL_YEAR ps g).
  destruct (nonempty (hist_years BASE_YEAR) && nonempty (fut_years LAST_MODEL_YEAR));
    [|reflexivity].
  cbn [obind andb].
  rewrite (mapM_if _ (fun y => nonempty (init_rows ct y))
             (fun y => mkDF fom_columns
                         (map (fom_row y (init_val_of ct y)) (from_year y ct))))
    by (intros; apply fom_updated_frame).
  destruct (forallb _ seq_years); [|reflexivity].
  cbn [obind].
  rewrite (concat_frames fom_columns
             (fun y => map (fom_row y (init_val_of ct y)) (from_year y ct))).
  - cbn [obind]. now rewrite tech_inv_frame.
  - discriminate.
  - reflexivity.
  - intros y _. apply Forall_forall. intros r Hr.
    apply in_map_iff in Hr as (p & <- & _). apply fom_row_aligned.
Qed.

(** [create_message_inputs] on a typed projection: it returns exactly on
    the projections accepted by [returns], and then the two frames are the
    images of the typed rows. *)
Lemma create_message_inputs_frame (ps : list ProjRow) :
  create_message_inputs BASE_YEAR LAST_MODEL_YEAR (to_frame ps)
  = if returns BASE_YEAR LAST_MODEL_YEAR ps
    then Some (mkDF inv_columns (msg_inv_rows BASE_YEAR LAST_MODEL_YEAR ps),
               mkDF fom_columns (msg_fom_rows BASE_YEAR LAST_MODEL_YEAR ps))
    else None.
Proof.
  unfold create_message_inputs, returns, msg_inv_rows, msg_fom_rows.
  assert (Hg : product4 (unique (column "scenario_version" (to_frame ps)))
                 (unique (column "scenario" (to_frame ps)))
                 (unique (column "message_technology" (to_frame ps)))
                 (unique (column "region" (to_frame ps)))
               = groups_of ps).
  { unfold groups_of, column, to_frame. cbn [columns rows].
    rewrite !map_map. reflexivity. }
  rewrite Hg. clear Hg.
  set (gout := fun g =>
         (mkDF inv_columns (map inv_row (group_total BASE_YEAR LAST_MODEL_YEAR ps g)),
          mkDF fom_columns (group_fom (group_total BASE_YEAR LAST_MODEL_YEAR ps g)))).
  rewrite (mapM_if _ (fun g => group_ok BASE_YEAR LAST_MODEL_YEAR
                                 (group_total BASE_YEAR LAST_MODEL_YEAR ps g)) gout)
    by (intros; apply group_body_frame).
  destruct (groups_of ps) as [|g0 gs] eqn:Eg.
  - reflexivity.
  - cbn [nonempty andb]. destruct (forallb _ (g0 :: gs)); [|reflexivity].
    cbn [obind]. rewrite !map_map. unfold gout. cbn [fst snd].
    rewrite (concat_mapped inv_columns inv_row
               (group_total BASE_YEAR LAST_MODEL_YEAR ps))
      by (try reflexivity; discriminate).
    cbn [obind].
    rewrite (concat_frames fom_columns
               (fun g => group_fom (group_total BASE_YEAR LAST_MODEL_YEAR ps g))).
    + reflexivity.
    + discriminate.
    + reflexivity.
    + intros g _. apply Forall_forall. intros r Hr.
      apply in_flat_map in Hr as (y & _ & Hr).
      apply in_map_iff in Hr as (p & <- & _). apply fom_row_aligned.
Qed.

End Refinement.

(** ** Membership in the typed outputs *)

Lemma in_hist_years (BASE_YEAR y : Z) :
  In y (hist_years BASE_YEAR) <-> In y seq_years /\ y < BASE_YEAR - 5.
Proof.
  unfold hist_years, smaller_than. rewrite filter_In, Z.ltb_lt. reflexivity.
Qed.

Lemma in_fut_years (LAST_MODEL_YEAR y : Z) :
  In y (fut_years LAST_MODEL_YEAR) <-> In y seq_years /\ LAST_MODEL_YEAR < y.
Proof.
  unfold fut_years, larger_than. rewrite filter_In, Z.gtb_ltb, Z.ltb_lt. reflexivity.
Qed.

Lemma in_at_year (y : Z) (l : list ProjRow) (p : ProjRow) :
  In p (at_year y l) <-> In p l /\ p_year p = y.
Proof. unfold at_year. rewrite filter_In, Z.eqb_eq. reflexivity. Qed.

Lemma in_from_year (y : Z) (l : list ProjRow) (p : ProjRow) :
  In p (from_year y l) <-> In p l /\ y <= p_year p.
Proof. unfold from_year. rewrite filter_In, Z.leb_le. reflexivity. Qed.

Lemma seq_years_bounds (y : Z) : In y seq_years -> 1960 <= y <= 2110.
Proof.
  intros H. vm_compute in H.
  repeat (destruct H as [<- | H]; [lia|]). contradiction.
Qed.

Section Membership.
Variables BASE_YEAR LAST_MODEL_YEAR : Z.

Lemma in_extend (tech : list ProjRow) (p : ProjRow) :
  In p (extend BASE_YEAR LAST_MODEL_YEAR tech)
  <-> origin BASE_YEAR LAST_MODEL_YEAR tech p.
Proof.
  unfold extend. rewrite !in_app_iff, !in_flat_map. split.
  - intros [(y & Hy & Hp) | [Hp | (y & Hy & Hp)]].
    + apply in_map_iff in Hp as (q & <- & Hq). apply in_at_year in Hq as [Hq E].
      apply in_hist_years in Hy as [Hy Hlt]. now apply from_hist.
    + now apply from_tech.
    + apply in_map_iff in Hp as (q & <- & Hq). apply in_at_year in Hq as [Hq E].
      apply in_fut_years in Hy as [Hy Hlt]. now apply from_fut.
  - intros [q y Hq E Hy Hlt | q Hq | q y Hq E Hy Hlt].
    + left. exists y. split; [now apply in_hist_years|].
      apply in_map. now apply in_at_year.
    + right. now left.
    + right. right. exists y. split; [now apply in_fut_years|].
      apply in_map. now apply in_at_year.
Qed.

Lemma in_msg_inv_rows (ps : list ProjRow) (r : row) :
  In r (msg_inv_rows BASE_YEAR LAST_MODEL_YEAR ps)
  <-> exists g p, In g (groups_of ps)
                  /\ In p (group_total BASE_YEAR LAST_MODEL_YEAR ps g)
                  /\ r = inv_row p.
Proof.
  unfold msg_inv_rows. rewrite in_map_iff. split.
  - intros (p & <- & Hp). apply in_flat_map in Hp as (g & Hg & Hp). eauto.
  - intros (g & p & Hg & Hp & ->). exists p. split; [reflexivity|].
    apply in_flat_map. eauto.
Qed.

Lemma in_msg_fom_rows (ps : list ProjRow) (r : row) :
  In r (msg_fom_rows BASE_YEAR LAST_MODEL_YEAR ps)
  <-> exists g y p,
        In g (groups_of ps) /\ In y seq_years
        /\ In p (group_total BASE_YEAR LAST_MODEL_YEAR ps g) /\ y <= p_year p
        /\ r = fom_row y (init_val_of (group_total BASE_YEAR LAST_MODEL_YEAR ps g) y) p.
Proof.
  unfold msg_fom_rows, group_fom. rewrite in_flat_map. split.
  - intros (g & Hg & Hr). apply in_flat_map in Hr as (y & Hy & Hr).
    apply in_map_iff in Hr as (p & <- & Hp). apply in_from_year in Hp as [Hp Hle].
    exists g, y, p. auto.
  - intros (g & y & p & Hg & Hy & Hp & Hle & ->). exists g. split; [exact Hg|].
    apply in_flat_map. exists y. split; [exact Hy|].
    apply in_map. now apply in_from_year.
Qed.

(** What a successful call returns. *)
Lemma create_message_inputs_Some (ps : list ProjRow) (inv fom : DataFrame) :
  create_message_inputs BASE_YEAR LAST_MODEL_YEAR (to_frame ps) = Some (inv, fom) ->
  returns BASE_YEAR LAST_MODEL_YEAR ps = true
  /\ inv = mkDF inv_columns (msg_inv_rows BASE_YEAR LAST_MODEL_YEAR ps)
  /\ fom = mkDF fom_columns (msg_fom_rows BASE_YEAR LAST_MODEL_YEAR ps).
Proof.
  rewrite create_message_inputs_frame.
  destruct (returns BASE_YEAR LAST_MODEL_YEAR ps); [|discriminate].
  intros [= <- <-]. auto.
Qed.

(** On the empty projection the loop does not run and [pd.concat] raises. *)
Lemma create_message_inputs_empty :
  create_message_inputs BASE_YEAR LAST_MODEL_YEAR (to_frame []) = None.
Proof. reflexivity. Qed.

Lemma group_total_in (ps : list ProjRow) (g : cell * cell * cell * cell)
      (p : ProjRow) :
  In p (group_total BASE_YEAR LAST_MODEL_YEAR ps g) ->
  exists q, In q ps /\ p_version q = p_version p /\ p_scenario q = p_scenario p
            /\ p_technology q = p_technology p /\ p_region q = p_region p
            /\ p_inv_cost q = p_inv_cost p /\ p_fix_cost q = p_fix_cost p
            /\ origin BASE_YEAR LAST_MODEL_YEAR (filter (in_group g) ps) p.
Proof.
  unfold group_total. intros H. apply in_extend in H.
  assert (Hsub : forall q, In q (filter (in_group g) ps) -> In q ps)
    by (intros q Hq; now apply filter_In in Hq).
  destruct H as [q y Hq E Hy Hlt | q Hq | q y Hq E Hy Hlt];
    exists q; repeat split; auto; now constructor.
Qed.

End Membership.

(** ** Groups and keys *)

Lemma cell_eqb_str_l (s : string) (c : cell) :
  cell_eqb (CStr s) c = true -> c = CStr s.
Proof.
  destruct c; simpl; try discriminate. intros H. apply String.eqb_eq in H. now subst.
Qed.

Lemma cell_eqb_str_refl (s : string) : cell_eqb (CStr s) (CStr s) = true.
Proof. simpl. apply String.eqb_refl. Qed.

Lemma unique_from_complete (s : string) (l seen : list cell) :
  In (CStr s) l -> existsb (cell_eqb (CStr s)) seen = false ->
  In (CStr s) (unique_from seen l).
Proof.
  revert seen. induction l as [|y l IH]; intros seen Hin Hseen; [contradiction|].
  simpl. destruct Hin as [-> | Hin].
  - rewrite Hseen. now left.
  - destruct (existsb (cell_eqb y) seen) eqn:Ey; [now apply IH|].
    destruct (cell_eqb (CStr s) y) eqn:Es.
    + apply cell_eqb_str_l in Es. subst. now left.
    + right. apply IH; [exact Hin|]. cbn [existsb]. now rewrite Es.
Qed.

Lemma unique_complete {A} (f : A -> string) (l : list A) (x : A) :
  In x l -> In (CStr (f x)) (unique (map (fun a => CStr (f a)) l)).
Proof.
  intros H. apply unique_from_complete; [|reflexivity].
  apply in_map_iff. now exists x.
Qed.

Lemma in_product4 {A} (a b c d : list A) (h i j k : A) :
  In h a -> In i b -> In j c -> In k d -> In (h, i, j, k) (product4 a b c d).
Proof.
  intros Ha Hb Hc Hd. unfold product4.
  apply in_flat_map. exists h. split; [exact Ha|].
  apply in_flat_map. exists i. split; [exact Hb|].
  apply in_flat_map. exists j. split; [exact Hc|].
  apply in_map_iff. now exists k.
Qed.

Lemma own_group (ps : list ProjRow) (p : ProjRow) :
  In p ps -> In (key_of p) (groups_of ps) /\ in_group (key_of p) p = true.
Proof.
  intros H. split.
  - unfold key_of, groups_of. apply in_product4.
    + apply (unique_complete p_version ps p H).
    + apply (unique_complete p_scenario ps p H).
    + apply (unique_complete p_technology ps p H).
    + apply (unique_complete p_region ps p H).
  - unfold in_group, key_of. now rewrite !cell_eqb_str_refl.
Qed.

Lemma in_group_keys (g : cell * cell * cell * cell) (p : ProjRow) :
  in_group g p = true -> g = key_of p.
Proof.
  destruct g as [[[h i] j] k]. unfold in_group, key_of.
  rewrite !andb_true_iff. intros [[[H1 H2] H3] H4].
  apply cell_eqb_str_l in H1, H2, H3, H4. now subst.
Qed.

Lemma origin_keys (BASE_YEAR LAST_MODEL_YEAR : Z) (g : cell * cell * cell * cell)
      (ps : list ProjRow) (p : ProjRow) :
  origin BASE_YEAR LAST_MODEL_YEAR (filter (in_group g) ps) p -> g = key_of p.
Proof.
  intros [q y Hq _ _ _ | q Hq | q y Hq _ _ _];
    apply filter_In in Hq as [_ Hq]; now apply in_group_keys in Hq.
Qed.

Lemma group_total_keys (BASE_YEAR LAST_MODEL_YEAR : Z) (ps : list ProjRow)
      (g : cell * cell * cell * cell) (p : ProjRow) :
  In p (group_total BASE_YEAR LAST_MODEL_YEAR ps g) -> g = key_of p.
Proof.
  intros H. apply in_extend in H. now apply origin_keys in H.
Qed.

Lemma same_keys_fom_row (y : Z) (v : Q) (p q : ProjRow) :
  key_of p = key_of q -> same_keys fom_columns (fom_row y v p) q.
Proof. unfold key_of. intros [= E1 E2 E3 E4]. repeat split; cbn; congruence. Qed.

(** ** The sample projection *)

Ltac in_list := vm_compute; repeat (first [left; reflexivity | right]).

Lemma sample_returns_2021 : returns 2021 2100 sample_projection = true.
Proof. vm_compute. reflexivity. Qed.

Lemma sample_returns_2020 : returns 2020 2100 sample_projection = true.
Proof. vm_compute. reflexivity. Qed.

Lemma sample_call_2021 :
  create_message_inputs 2021 2100 (to_frame sample_projection)
  = Some (sample_output 2021).
Proof. rewrite create_message_inputs_frame, sample_returns_2021. reflexivity. Qed.

Lemma sample_call_2020 :
  create_message_inputs 2020 2100 (to_frame sample_projection)
  = Some (sample_output 2020).
Proof. rewrite create_message_inputs_frame, sample_returns_2020. reflexivity. Qed.

Lemma sample_key_in : In sample_key (groups_of sample_projection).
Proof. in_list. Qed.

Lemma sample_fom_row_in (BASE_YEAR v : Z) (p : ProjRow) :
  In v seq_years ->
  In p (group_total BASE_YEAR 2100 sample_projection sample_key) ->
  v <= p_year p ->
  In (sample_fom_row BASE_YEAR v p) (rows (snd (sample_output BASE_YEAR))).
Proof.
  intros Hv Ha Hle. cbn [sample_output snd rows]. apply in_msg_fom_rows.
  exists sample_key, v, p. repeat split; auto using sample_key_in.
Qed.

Lemma sample_inv_row_in (BASE_YEAR : Z) (p : ProjRow) :
  In p (group_total BASE_YEAR 2100 sample_projection sample_key) ->
  In (inv_row p) (rows (fst (sample_output BASE_YEAR))).
Proof.
  intros Ha. cbn [sample_output fst rows]. apply in_msg_inv_rows.
  exists sample_key, p. auto using sample_key_in.
Qed.

(** ** Properties of [create_message_inputs] *)

Section Claims.
Variables BASE_YEAR LAST_MODEL_YEAR : Z.

(** C10.  In the fixed-cost frame returned by [create_message_inputs] every
    row has a vintage year of the 5-year grid and an activity year that is
    not before it. *)
Theorem fom_year_act_not_before_year_vtg (ps : list ProjRow) (inv fom : DataFrame) :
  create_message_inputs BASE_YEAR LAST_MODEL_YEAR (to_frame ps) = Some (inv, fom) ->
  forall r, In r (rows fom) ->
  exists v a,
    get (columns fom) r "year_vtg" = CInt v
    /\ get (columns fom) r "year_act" = CInt a
    /\ In v seq_years
    /\ v <= a.
Proof.
  intros Hcall r Hr.
  apply create_message_inputs_Some in Hcall as (_ & _ & ->).
  cbn [rows columns] in *.
  apply in_msg_fom_rows in Hr as (g & y & p & _ & Hy & _ & Hle & ->).
  exists y, (p_year p). repeat split; auto.
Qed.

(** C4, amended.  When the base year is not after the last model year and
    the projection has no record before the base year other than at 2020,
    every investment-cost row whose year is strictly before the base year
    carries the investment cost of a record of its own combination at the
    anchor year 2020. *)
Theorem inv_cost_before_base_year (ps : list ProjRow) (inv fom : DataFrame) :
  no_record_before_base_year BASE_YEAR LAST_MODEL_YEAR ps = true ->
  create_message_inputs BASE_YEAR LAST_MODEL_YEAR (to_frame ps) = Some (inv, fom) ->
  forall r y, In r (rows inv) ->
  get (columns inv) r "year_vtg" = CInt y ->
  y < BASE_YEAR ->
  exists p, In p ps /\ p_year p = 2020
            /\ same_keys (columns inv) r p
            /\ get (columns inv) r "value" = CNum (p_inv_cost p).
Proof.
  intros Hh Hcall r y Hr Hy Hlt.
  apply create_message_inputs_Some in Hcall as (_ & -> & _).
  cbn [rows columns] in *.
  apply in_msg_inv_rows in Hr as (g & q & _ & Hq & ->).
  cbn in Hy. injection Hy as Hy.
  unfold no_record_before_base_year in Hh. apply andb_true_iff in Hh as [Hb Hh].
  apply Z.leb_le in Hb. rewrite forallb_forall in Hh.
  assert (Hrec : forall p, In p (filter (in_group g) ps) ->
                 p_year p = 2020 \/ BASE_YEAR <= p_year p).
  { intros p Hp. apply filter_In in Hp as [Hp _]. specialize (Hh p Hp).
    apply orb_true_iff in Hh. now rewrite Z.eqb_eq, Z.leb_le in Hh. }
  unfold group_total in Hq. apply in_extend in Hq.
  destruct Hq as [q0 y0 Hq0 E Hy0 Hlt0 | q0 Hq0 | q0 y0 Hq0 E Hy0 Hlt0].
  - exists q0. apply filter_In in Hq0 as [Hq0 _].
    repeat split; auto.
  - destruct (Hrec q0 Hq0) as [E | Hge]; [|lia].
    exists q0. apply filter_In in Hq0 as [Hq0 _]. repeat split; auto.
  - cbn in Hy. lia.
Qed.

End Claims.

Lemma fom_year_act_not_before_year_vtg_witness :
  create_message_inputs 2021 2100 (to_frame sample_projection)
  = Some (sample_output 2021)
  /\ In (sample_fom_row 2021 2025 (sample_record 2030)) (rows (snd (sample_output 2021)))
  /\ exists v a,
       get (columns (snd (sample_output 2021))) (sample_fom_row 2021 2025 (sample_record 2030))
           "year_vtg" = CInt v
       /\ get (columns (snd (sample_output 2021))) (sample_fom_row 2021 2025 (sample_record 2030))
              "year_act" = CInt a
       /\ In v seq_years
       /\ v <= a.
Proof.
  assert (Hin : In (sample_fom_row 2021 2025 (sample_record 2030)) (rows (snd (sample_output 2021)))).
  { apply sample_fom_row_in; [in_list | in_list | cbn; lia]. }
  split; [exact sample_call_2021|]. split; [exact Hin|].
  exact (fom_year_act_not_before_year_vtg 2021 2100 sample_projection
           (fst (sample_output 2021)) (snd (sample_output 2021))
           sample_call_2021 _ Hin).
Defined.

Lemma inv_cost_before_base_year_witness :
  no_record_before_base_year 2021 2100 sample_projection = true
  /\ create_message_inputs 2021 2100 (to_frame sample_projection)
     = Some (sample_output 2021)
  /\ In (inv_row (set_year 1990 (sample_record 2020))) (rows (fst (sample_output 2021)))
  /\ get (columns (fst (sample_output 2021))) (inv_row (set_year 1990 (sample_record 2020)))
         "year_vtg" = CInt 1990
  /\ 1990 < 2021
  /\ exists p, In p sample_projection /\ p_year p = 2020
               /\ same_keys (columns (fst (sample_output 2021)))
                            (inv_row (set_year 1990 (sample_record 2020))) p
               /\ get (columns (fst (sample_output 2021)))
                      (inv_row (set_year 1990 (sample_record 2020))) "value"
                  = CNum (p_inv_cost p).
Proof.
  assert (Hin : In (inv_row (set_year 1990 (sample_record 2020))) (rows (fst (sample_output 2021)))).
  { apply sample_inv_row_in. in_list. }
  assert (Hh : no_record_before_base_year 2021 2100 sample_projection = true)
    by (vm_compute; reflexivity).
  assert (Hlt : 1990 < 2021) by lia.
  repeat (split; [first [exact Hh | exact sample_call_2021 | exact Hin
                        | reflexivity | exact Hlt]|]).
  exact (inv_cost_before_base_year 2021 2100 sample_projection
           (fst (sample_output 2021)) (snd (sample_output 2021))
           Hh sample_call_2021 _ 1990 Hin eq_refl Hlt).
Defined.

(** C4 as it is written fails on a record of the projection that lies
    before the base year: it keeps its own cost.  With base year 2030 the
    row at 2025 does not carry the cost of 2020, and with base year 2021
    neither does the row of a record at 2015. *)
Lemma anchor_value_not_always_repeated :
  (exists inv fom,
     create_message_inputs 2030 2100 (to_frame sample_projection) = Some (inv, fom)
     /\ ~ repeats_anchor_value 2030 sample_projection inv)
  /\ (exists inv fom,
        create_message_inputs 2021 2100 (to_frame sample_early) = Some (inv, fom)
        /\ ~ repeats_anchor_value 2021 sample_early inv).
Proof.
  split.
  - exists (mkDF inv_columns (msg_inv_rows 2030 2100 sample_projection)),
           (mkDF fom_columns (msg_fom_rows 2030 2100 sample_projection)).
    split.
    + rewrite create_message_inputs_frame.
      assert (Hret : returns 2030 2100 sample_projection = true)
        by (vm_compute; reflexivity).
      now rewrite Hret.
    + intros H. unfold repeats_anchor_value in H. cbn [columns rows] in H.
      specialize (H (inv_row (sample_record 2025)) 2025 (sample_record 2020)).
      assert (Hc : cell_eqb
                     (get inv_columns (inv_row (sample_record 2025)) "value")
                     (CNum (p_inv_cost (sample_record 2020)))
                   = false) by (vm_compute; reflexivity).
      rewrite H in Hc; [discriminate | | reflexivity | lia | in_list | reflexivity |].
      * apply in_msg_inv_rows. exists sample_key, (sample_record 2025).
        split; [exact sample_key_in|]. split; [in_list | reflexivity].
      * repeat split.
  - exists (mkDF inv_columns (msg_inv_rows 2021 2100 sample_early)),
           (mkDF fom_columns (msg_fom_rows 2021 2100 sample_early)).
    split.
    + rewrite create_message_inputs_frame.
      assert (Hret : returns 2021 2100 sample_early = true)
        by (vm_compute; reflexivity).
      now rewrite Hret.
    + intros H. unfold repeats_anchor_value in H. cbn [columns rows] in H.
      specialize (H (inv_row (sample_record 2015)) 2015 (sample_record 2020)).
      assert (Hc : cell_eqb
                     (get inv_columns (inv_row (sample_record 2015)) "value")
                     (CNum (p_inv_cost (sample_record 2020)))
                   = false) by (vm_compute; reflexivity).
      assert (Hg : In sample_key (groups_of sample_early)) by in_list.
      rewrite H in Hc; [discriminate | | reflexivity | lia | in_list | reflexivity |].
      * apply in_msg_inv_rows. exists sample_key, (sample_record 2015).
        split; [exact Hg|]. split; [in_list | reflexivity].
      * repeat split.
Qed.

Section ClaimsOnYears.
Variables BASE_YEAR LAST_MODEL_YEAR : Z.

(** C5, amended.  When the base year is not after the last model year and
    the projection has no record after the last model year, every
    investment-cost row whose year is strictly after the last model year is
    at a year of the 5-year grid up to 2110 and carries the investment cost
    of a record of its own combination at year 2100; and every record at
    2100 is repeated at every year of the grid after the last model year. *)
Theorem inv_cost_after_last_model_year (ps : list ProjRow) (inv fom : DataFrame) :
  no_record_after_last_model_year BASE_YEAR LAST_MODEL_YEAR ps = true ->
  create_message_inputs BASE_YEAR LAST_MODEL_YEAR (to_frame ps) = Some (inv, fom) ->
  (forall r y, In r (rows inv) ->
     get (columns inv) r "year_vtg" = CInt y ->
     LAST_MODEL_YEAR < y ->
     In y seq_years /\ y <= HORIZON_END
     /\ exists p, In p ps /\ p_year p = 2100
                  /\ same_keys (columns inv) r p
                  /\ get (columns inv) r "value" = CNum (p_inv_cost p))
  /\ (forall p y, In p ps -> p_year p = 2100 ->
        In y seq_years -> LAST_MODEL_YEAR < y ->
        In (inv_row (set_year y p)) (rows inv)).
Proof.
  intros Hh Hcall.
  apply create_message_inputs_Some in Hcall as (_ & -> & _).
  cbn [rows columns] in *.
  unfold no_record_after_last_model_year in Hh.
  apply andb_true_iff in Hh as [Hb Hh].
  apply Z.leb_le in Hb. rewrite forallb_forall in Hh.
  split.
  - intros r y Hr Hy Hlt.
    apply in_msg_inv_rows in Hr as (g & q & _ & Hq & ->).
    cbn in Hy. injection Hy as Hy.
    unfold group_total in Hq. apply in_extend in Hq.
    destruct Hq as [q0 y0 Hq0 E Hy0 Hlt0 | q0 Hq0 | q0 y0 Hq0 E Hy0 Hlt0].
    + cbn in Hy. lia.
    + apply filter_In in Hq0 as [Hq0 _].
      specialize (Hh q0 Hq0). apply Z.leb_le in Hh. lia.
    + cbn in Hy. subst y0. apply filter_In in Hq0 as [Hq0 _].
      pose proof (seq_years_bounds y Hy0) as Hbd. unfold HORIZON_END.
      repeat split; [exact Hy0 | lia |].
      exists q0. repeat split; auto.
  - intros p y Hp E Hy Hlt.
    apply in_msg_inv_rows. destruct (own_group ps p Hp) as [Hg Hin].
    exists (key_of p), (set_year y p). repeat split; [exact Hg|].
    unfold group_total. apply in_extend. apply from_fut; auto.
    apply filter_In. auto.
Qed.

End ClaimsOnYears.

Lemma inv_cost_after_last_model_year_witness :
  no_record_after_last_model_year 2021 2100 sample_projection = true
  /\ create_message_inputs 2021 2100 (to_frame sample_projection)
     = Some (sample_output 2021)
  /\ In (inv_row (set_year 2110 (sample_record 2100)))
        (rows (fst (sample_output 2021)))
  /\ exists p, In p sample_projection /\ p_year p = 2100
               /\ same_keys (columns (fst (sample_output 2021)))
                            (inv_row (set_year 2110 (sample_record 2100))) p
               /\ get (columns (fst (sample_output 2021)))
                      (inv_row (set_year 2110 (sample_record 2100))) "value"
                  = CNum (p_inv_cost p).
Proof.
  assert (Hh : no_record_after_last_model_year 2021 2100 sample_projection = true)
    by (vm_compute; reflexivity).
  destruct (inv_cost_after_last_model_year 2021 2100 sample_projection
              (fst (sample_output 2021)) (snd (sample_output 2021))
              Hh sample_call_2021) as [Hval Hext].
  assert (Hin : In (inv_row (set_year 2110 (sample_record 2100)))
                   (rows (fst (sample_output 2021)))).
  { apply (Hext (sample_record 2100) 2110); [in_list | reflexivity | in_list | lia]. }
  split; [exact Hh|]. split; [exact sample_call_2021|]. split; [exact Hin|].
  assert (Hlt : 2100 < 2110) by lia.
  exact (proj2 (proj2 (Hval _ 2110 Hin eq_refl Hlt))).
Defined.

(** C5 as it is written fails twice.  On the fixed-cost frame the row of
    vintage 2100 at activity year 2105 has decayed from the one at 2100.
    On the investment-cost frame a record of the projection after the last
    model year keeps its own cost: the record at 2115 does not carry the
    cost of 2100. *)
Lemma final_value_not_always_repeated :
  (exists inv fom,
     create_message_inputs 2021 2100 (to_frame sample_projection) = Some (inv, fom)
     /\ ~ repeats_final_value "year_act" ("year_vtg" :: group_cols) fom)
  /\ (exists inv fom,
        create_message_inputs 2021 2100 (to_frame sample_beyond) = Some (inv, fom)
        /\ ~ repeats_final_value "year_vtg" group_cols inv).
Proof.
  split.
  - exists (fst (sample_output 2021)), (snd (sample_output 2021)).
    split; [exact sample_call_2021|]. intros H.
    specialize (H (sample_fom_row 2021 2100 (set_year 2105 (sample_record 2100)))
                  (sample_fom_row 2021 2100 (sample_record 2100)) 2105).
    assert (Hc : cell_eqb
                   (get (columns (snd (sample_output 2021)))
                      (sample_fom_row 2021 2100
                         (set_year 2105 (sample_record 2100))) "value")
                   (get (columns (snd (sample_output 2021)))
                      (sample_fom_row 2021 2100 (sample_record 2100)) "value")
                 = false)
      by (cbn [sample_output snd columns]; vm_compute; reflexivity).
    rewrite H in Hc; [discriminate | | | reflexivity | lia | reflexivity |].
    + apply sample_fom_row_in; [in_list | in_list | cbn; lia].
    + apply sample_fom_row_in; [in_list | in_list | cbn; lia].
    + intros c Hc'. cbn in Hc'.
      repeat (destruct Hc' as [<- | Hc']; [reflexivity|]). contradiction.
  - exists (mkDF inv_columns (msg_inv_rows 2021 2100 sample_beyond)),
           (mkDF fom_columns (msg_fom_rows 2021 2100 sample_beyond)).
    split.
    + rewrite create_message_inputs_frame.
      assert (Hret : returns 2021 2100 sample_beyond = true)
        by (vm_compute; reflexivity).
      now rewrite Hret.
    + intros H. unfold repeats_final_value in H. cbn [columns rows] in H.
      specialize (H (inv_row (sample_record 2115)) (inv_row (sample_record 2100))
                    2115).
      assert (Hc : cell_eqb
                     (get inv_columns (inv_row (sample_record 2115)) "value")
                     (get inv_columns (inv_row (sample_record 2100)) "value")
                   = false) by (vm_compute; reflexivity).
      assert (Hg : In sample_key (groups_of sample_beyond)) by in_list.
      rewrite H in Hc; [discriminate | | | reflexivity | lia | reflexivity |].
      * apply in_msg_inv_rows. exists sample_key, (sample_record 2115).
        split; [exact Hg|]. split; [in_list | reflexivity].
      * apply in_msg_inv_rows. exists sample_key, (sample_record 2100).
        split; [exact Hg|]. split; [in_list | reflexivity].
      * intros c Hc'. cbn in Hc'.
        repeat (destruct Hc' as [<- | Hc']; [reflexivity|]). contradiction.
Qed.

Lemma fom_row_value (y : Z) (v : Q) (p : ProjRow) :
  get fom_columns (fom_row y v p) "value" = fom_value y v p.
Proof. reflexivity. Qed.

Lemma init_val_of_head (ct : list ProjRow) (y : Z) :
  nonempty (init_rows ct y) = true ->
  exists q, In q ct /\ p_year q = init_year y /\ init_val_of ct y = p_fix_cost q.
Proof.
  unfold init_val_of. destruct (init_rows ct y) as [|q rest] eqn:E; [discriminate|].
  intros _. exists q.
  assert (Hq : In q (init_rows ct y)) by (rewrite E; now left).
  unfold init_rows in Hq. apply in_at_year in Hq as [Hq Ey].
  apply in_from_year in Hq as [Hq _]. auto.
Qed.

Lemma fom_factor_nonneg : (0 <= fom_factor)%Q.
Proof. vm_compute. discriminate. Qed.

Section ClaimsOnValues.
Variables BASE_YEAR LAST_MODEL_YEAR : Z.

Lemma returns_init (ps : list ProjRow) (g : cell * cell * cell * cell) (y : Z) :
  returns BASE_YEAR LAST_MODEL_YEAR ps = true ->
  In g (groups_of ps) -> In y seq_years ->
  nonempty (init_rows (group_total BASE_YEAR LAST_MODEL_YEAR ps g) y) = true.
Proof.
  unfold returns, group_ok. rewrite andb_true_iff, forallb_forall.
  intros [_ H] Hg Hy. specialize (H g Hg).
  rewrite !andb_true_iff, forallb_forall in H. destruct H as [_ H]. now apply H.
Qed.

(** C3, amended.  In the fixed-cost frame, a row of activity year [a] at or
    before 2020 carries unchanged the fixed cost that the horizon-extended
    table of its combination records at [a]; a row of vintage [v] from 2020
    on and of activity year [a] after 2020, up to the end of the horizon,
    carries the fixed cost recorded at [v] multiplied by [(1 - 0.0025)] to
    the power [a - v]. *)
Theorem fix_cost_trajectory (ps : list ProjRow) (inv fom : DataFrame) :
  create_message_inputs BASE_YEAR LAST_MODEL_YEAR (to_frame ps) = Some (inv, fom) ->
  forall r, In r (rows fom) ->
  exists g v a,
    In g (groups_of ps)
    /\ get (columns fom) r "year_vtg" = CInt v
    /\ get (columns fom) r "year_act" = CInt a
    /\ (a <= 2020 ->
        exists q, In q (group_total BASE_YEAR LAST_MODEL_YEAR ps g)
                  /\ p_year q = a
                  /\ same_keys (columns fom) r q
                  /\ get (columns fom) r "value" = CNum (p_fix_cost q))
    /\ (2020 <= v -> 2020 < a -> a <= HORIZON_END ->
        exists q, In q (group_total BASE_YEAR LAST_MODEL_YEAR ps g)
                  /\ p_year q = v
                  /\ same_keys (columns fom) r q
                  /\ get (columns fom) r "value"
                     = CNum (p_fix_cost q * fom_factor ^ (a - v))).
Proof.
  intros Hcall r Hr.
  apply create_message_inputs_Some in Hcall as (Hret & _ & ->).
  cbn [rows columns] in *.
  apply in_msg_fom_rows in Hr as (g & y & p & Hg & Hy & Hp & Hle & ->).
  exists g, y, (p_year p). repeat split; auto.
  - intros Ha. exists p. repeat split; auto.
    rewrite fom_row_value. unfold fom_value.
    destruct (Z.leb_spec (p_year p) 2020); [reflexivity | lia].
  - intros Hv Ha Hend. unfold HORIZON_END in Hend.
    destruct (init_val_of_head _ y (returns_init ps g y Hret Hg Hy))
      as (q & Hq & Eq & Ev).
    assert (Ei : init_year y = y).
    { unfold init_year. destruct (Z.leb_spec y 2020); lia. }
    rewrite Ei in Eq. exists q. split; [exact Hq|]. split; [exact Eq|]. split.
    + apply same_keys_fom_row.
      rewrite <- (group_total_keys _ _ _ _ _ Hp).
      now rewrite <- (group_total_keys _ _ _ _ _ Hq).
    + rewrite fom_row_value, Ev. unfold fom_value.
      destruct (Z.leb_spec (p_year p) 2020); [lia|].
      destruct (Z.leb_spec y (p_year p)); [|lia].
      destruct (Z.ltb_spec (p_year p) 2111); [reflexivity | lia].
Qed.

(** C7.  If the investment and fixed costs of the projection are not
    negative, then every investment-cost value of the output is a number
    that is not negative, and so is every fixed-cost value at an activity
    year up to the end of the horizon. *)
Theorem costs_nonnegative (ps : list ProjRow) (inv fom : DataFrame) :
  nonneg_costs ps = true ->
  create_message_inputs BASE_YEAR LAST_MODEL_YEAR (to_frame ps) = Some (inv, fom) ->
  (forall r, In r (rows inv) ->
     exists q, get (columns inv) r "value" = CNum q /\ (0 <= q)%Q)
  /\ (forall r a, In r (rows fom) ->
        get (columns fom) r "year_act" = CInt a -> a <= HORIZON_END ->
        exists q, get (columns fom) r "value" = CNum q /\ (0 <= q)%Q).
Proof.
  intros Hnn Hcall.
  apply create_message_inputs_Some in Hcall as (Hret & -> & ->).
  cbn [rows columns].
  unfold nonneg_costs in Hnn. rewrite forallb_forall in Hnn.
  assert (Hct : forall g p, In p (group_total BASE_YEAR LAST_MODEL_YEAR ps g) ->
                  (0 <= p_inv_cost p)%Q /\ (0 <= p_fix_cost p)%Q).
  { intros g p Hp. apply group_total_in in Hp as (q & Hq & _ & _ & _ & _ & Ei & Ef & _).
    specialize (Hnn q Hq). apply andb_true_iff in Hnn as [H1 H2].
    apply Qle_bool_iff in H1, H2. rewrite <- Ei, <- Ef. auto. }
  split.
  - intros r Hr. apply in_msg_inv_rows in Hr as (g & p & _ & Hp & ->).
    exists (p_inv_cost p). split; [reflexivity|]. now apply (Hct g).
  - intros r a Hr Ha Hend. unfold HORIZON_END in Hend.
    apply in_msg_fom_rows in Hr as (g & y & p & Hg & Hy & Hp & Hle & ->).
    cbn in Ha. injection Ha as <-.
    rewrite fom_row_value. unfold fom_value.
    destruct (Z.leb_spec (p_year p) 2020).
    + exists (p_fix_cost p). split; [reflexivity|]. now apply (Hct g).
    + destruct (Z.leb_spec y (p_year p)); [|lia].
      destruct (Z.ltb_spec (p_year p) 2111); [|lia].
      eexists. split; [reflexivity|].
      apply Qmult_le_0_compat; [|apply Qpower_0_le, fom_factor_nonneg].
      destruct (init_val_of_head _ y (returns_init ps g y Hret Hg Hy))
        as (q & Hq & _ & ->).
      now apply (Hct g).
Qed.

(** C6.  Whenever [create_message_inputs] returns, the investment-cost
    frame and the fixed-cost frame have the fixed columns in their order,
    every row has one cell per column and the unit of every row is
    ["USD/kWa"]; and it does return on every projection accepted by
    [returns]. *)
Theorem create_message_inputs_columns (ps : list ProjRow) :
  (forall inv fom,
     create_message_inputs BASE_YEAR LAST_MODEL_YEAR (to_frame ps) = Some (inv, fom) ->
     columns inv = ["scenario_version"; "scenario"; "node_loc"; "technology";
                    "year_vtg"; "value"; "unit"]
     /\ columns fom = ["scenario_version"; "scenario"; "node_loc"; "technology";
                       "year_vtg"; "year_act"; "value"; "unit"]
     /\ (forall r, In r (rows inv) ->
           List.length r = 7%nat /\ get (columns inv) r "unit" = CStr "USD/kWa")
     /\ (forall r, In r (rows fom) ->
           List.length r = 8%nat /\ get (columns fom) r "unit" = CStr "USD/kWa"))
  /\ (returns BASE_YEAR LAST_MODEL_YEAR ps = true ->
      exists inv fom,
        create_message_inputs BASE_YEAR LAST_MODEL_YEAR (to_frame ps)
        = Some (inv, fom)).
Proof.
  split.
  - intros inv fom Hcall.
    apply create_message_inputs_Some in Hcall as (_ & -> & ->).
    cbn [rows columns]. split; [reflexivity|]. split; [reflexivity|]. split.
    + intros r Hr. apply in_msg_inv_rows in Hr as (g & p & _ & _ & ->).
      split; reflexivity.
    + intros r Hr. apply in_msg_fom_rows in Hr as (g & y & p & _ & _ & _ & _ & ->).
      split; reflexivity.
  - intros Hret. rewrite create_message_inputs_frame, Hret. eauto.
Qed.

End ClaimsOnValues.

Lemma fix_cost_trajectory_witness :
  create_message_inputs 2021 2100 (to_frame sample_projection)
  = Some (sample_output 2021)
  /\ In (sample_fom_row 2021 2025 (sample_record 2030))
        (rows (snd (sample_output 2021)))
  /\ exists g v a,
       In g (groups_of sample_projection)
       /\ get (columns (snd (sample_output 2021)))
              (sample_fom_row 2021 2025 (sample_record 2030)) "year_vtg" = CInt v
       /\ get (columns (snd (sample_output 2021)))
              (sample_fom_row 2021 2025 (sample_record 2030)) "year_act" = CInt a
       /\ (a <= 2020 ->
           exists q, In q (group_total 2021 2100 sample_projection g)
                     /\ p_year q = a
                     /\ same_keys (columns (snd (sample_output 2021)))
                                  (sample_fom_row 2021 2025 (sample_record 2030)) q
                     /\ get (columns (snd (sample_output 2021)))
                            (sample_fom_row 2021 2025 (sample_record 2030)) "value"
                        = CNum (p_fix_cost q))
       /\ (2020 <= v -> 2020 < a -> a <= HORIZON_END ->
           exists q, In q (group_total 2021 2100 sample_projection g)
                     /\ p_year q = v
                     /\ same_keys (columns (snd (sample_output 2021)))
                                  (sample_fom_row 2021 2025 (sample_record 2030)) q
                     /\ get (columns (snd (sample_output 2021)))
                            (sample_fom_row 2021 2025 (sample_record 2030)) "value"
                        = CNum (p_fix_cost q * fom_factor ^ (a - v))).
Proof.
  assert (Hin : In (sample_fom_row 2021 2025 (sample_record 2030))
                   (rows (snd (sample_output 2021)))).
  { apply sample_fom_row_in; [in_list | in_list | cbn; lia]. }
  split; [exact sample_call_2021|]. split; [exact Hin|].
  exact (fix_cost_trajectory 2021 2100 sample_projection
           (fst (sample_output 2021)) (snd (sample_output 2021))
           sample_call_2021 _ Hin).
Defined.

(** C3 as it is written fails: with base year 2020, the row of vintage 2025
    at activity year 2030 starts from the fixed cost of 2025 and decays
    over five years, not from the fixed cost of 2020 over ten. *)
Lemma fix_cost_not_decayed_from_base_year :
  exists inv fom,
    create_message_inputs 2020 2100 (to_frame sample_projection) = Some (inv, fom)
    /\ ~ decays_from_base_year 2020 sample_projection fom.
Proof.
  exists (fst (sample_output 2020)), (snd (sample_output 2020)).
  split; [exact sample_call_2020|]. intros H.
  specialize (H (sample_fom_row 2020 2025 (sample_record 2030)) 2030
                (sample_record 2020)).
  assert (Hc : cell_eqb
                 (get (columns (snd (sample_output 2020)))
                    (sample_fom_row 2020 2025 (sample_record 2030)) "value")
                 (CNum (p_fix_cost (sample_record 2020) * fom_factor ^ (2030 - 2020)))
               = false)
    by (cbn [sample_output snd columns]; vm_compute; reflexivity).
  rewrite H in Hc; [discriminate | | reflexivity | lia | in_list | reflexivity |].
  - apply sample_fom_row_in; [in_list | in_list | cbn; lia].
  - repeat split.
Qed.

Lemma costs_nonnegative_witness :
  nonneg_costs sample_projection = true
  /\ create_message_inputs 2021 2100 (to_frame sample_projection)
     = Some (sample_output 2021)
  /\ In (sample_fom_row 2021 2025 (sample_record 2030))
        (rows (snd (sample_output 2021)))
  /\ exists q,
       get (columns (snd (sample_output 2021)))
           (sample_fom_row 2021 2025 (sample_record 2030)) "value" = CNum q
       /\ (0 <= q)%Q.
Proof.
  assert (Hnn : nonneg_costs sample_projection = true) by (vm_compute; reflexivity).
  assert (Hin : In (sample_fom_row 2021 2025 (sample_record 2030))
                   (rows (snd (sample_output 2021)))).
  { apply sample_fom_row_in; [in_list | in_list | cbn; lia]. }
  assert (Hend : 2030 <= HORIZON_END) by (unfold HORIZON_END; lia).
  split; [exact Hnn|]. split; [exact sample_call_2021|]. split; [exact Hin|].
  exact (proj2 (costs_nonnegative 2021 2100 sample_projection
                  (fst (sample_output 2021)) (snd (sample_output 2021))
                  Hnn sample_call_2021) _ 2030 Hin eq_refl Hend).
Defined.

Lemma create_message_inputs_columns_witness :
  returns 2021 2100 sample_projection = true
  /\ create_message_inputs 2021 2100 (to_frame sample_projection)
     = Some (sample_output 2021)
  /\ columns (fst (sample_output 2021))
     = ["scenario_version"; "scenario"; "node_loc"; "technology";
        "year_vtg"; "value"; "unit"]
  /\ columns (snd (sample_output 2021))
     = ["scenario_version"; "scenario"; "node_loc"; "technology";
        "year_vtg"; "year_act"; "value"; "unit"]
  /\ exists inv fom,
       create_message_inputs 2021 2100 (to_frame sample_projection)
       = Some (inv, fom).
Proof.
  destruct (create_message_inputs_columns 2021 2100 sample_projection)
    as [Hcols Hret].
  destruct (Hcols _ _ sample_call_2021) as (Hi & Hf & _).
  split; [exact sample_returns_2021|]. split; [exact sample_call_2021|].
  split; [exact Hi|]. split; [exact Hf|].
  exact (Hret sample_returns_2021).
Defined.

(** ** Properties of [get_cost_projections] *)

Lemma str_in_true_iff (s : string) (l : list string) :
  str_in s l = true <-> In s l.
Proof.
  split; [|apply str_in_In].
  induction l as [|x l IH]; simpl; [discriminate|].
  destruct (String.eqb_spec s x); [now left | right; auto].
Qed.

Lemma in_range_from (y start : Z) (n : nat) :
  start <= y < start + Z.of_nat n -> In y (range_from start 1 n).
Proof.
  revert start. induction n as [|n IH]; intros start H; [lia|].
  simpl. destruct (Z.eq_dec start y); [now left|].
  right. apply IH. lia.
Qed.

Lemma in_py_range (y start stop : Z) :
  start <= y < stop -> In y (py_range start stop 1).
Proof.
  intros H. unfold py_range. apply in_range_from.
  replace (stop - start + 1 - 1) with (stop - start) by lia.
  rewrite Z.div_1_r. lia.
Qed.

Section EntryPoint.

Variable get_weo_region_differentiated_costs :
  string -> string -> Z -> option DataFrame.
Variable project_ref_region_inv_costs_using_learning_rates :
  DataFrame -> string -> string -> Z -> option DataFrame.
Variable calculate_gdp_adjusted_region_cost_ratios :
  DataFrame -> string -> string -> Z -> option DataFrame.
Variable project_all_inv_costs :
  DataFrame -> DataFrame -> DataFrame -> Z -> string -> string -> option DataFrame.
Variable get_final_inv_and_fom_costs : DataFrame -> string -> option DataFrame.

Local Abbreviation entry :=
  (get_cost_projections get_weo_region_differentiated_costs
     project_ref_region_inv_costs_using_learning_rates
     calculate_gdp_adjusted_region_cost_ratios project_all_inv_costs
     get_final_inv_and_fom_costs).

Variables (sel_node : string) (sel_base_year : Z)
          (sel_scenario_version sel_scenario sel_method : string)
          (sel_convergence_year : Z) (sel_format : string).

(** C1.  When the upper-cased [sel_node] is not one of R11, R12, R20 the
    entry point prints nothing, raises nothing and returns the message;
    when it is one of them, whatever the case of [sel_node], the message is
    not what is returned. *)
Theorem invalid_node_returns_message (sel_ref_region : option string) :
  (~ In (upper sel_node) ["R11"; "R12"; "R20"] ->
   entry sel_node sel_ref_region sel_base_year sel_scenario_version sel_scenario
         sel_method sel_convergence_year sel_format
   = ([], Some (ErrorString
                  "Please select a valid spatial resolution: R11, R12, or R20")))
  /\ (In (upper sel_node) ["R11"; "R12"; "R20"] ->
      forall s,
        snd (entry sel_node sel_ref_region sel_base_year sel_scenario_version
                   sel_scenario sel_method sel_convergence_year sel_format)
        <> Some (ErrorString s)).
Proof.
  unfold get_cost_projections, valid_nodes. split; intros H.
  - destruct (str_in (upper sel_node) ["R11"; "R12"; "R20"]) eqn:E; [|reflexivity].
    apply str_in_true_iff in E. contradiction.
  - apply str_in_true_iff in H. rewrite H. cbn [negb]. intros s.
    destruct (resolve_ref_region (upper sel_node) sel_ref_region); [|discriminate].
    cbn [snd].
    destruct (get_weo_region_differentiated_costs _ _ _); [|discriminate].
    cbn [obind].
    destruct (project_ref_region_inv_costs_using_learning_rates _ _ _ _);
      [|discriminate].
    cbn [obind].
    destruct (calculate_gdp_adjusted_region_cost_ratios _ _ _ _); [|discriminate].
    cbn [obind].
    destruct (project_all_inv_costs _ _ _ _ _ _); [|discriminate].
    cbn [obind].
    destruct (get_final_inv_and_fom_costs _ _); discriminate.
Qed.

Lemma default_region_used (node default : string) :
  resolve_ref_region node None = Some default ->
  upper default = default ->
  upper sel_node = node ->
  entry sel_node None sel_base_year sel_scenario_version sel_scenario
        sel_method sel_convergence_year sel_format
  = entry sel_node (Some default) sel_base_year sel_scenario_version sel_scenario
          sel_method sel_convergence_year sel_format.
Proof.
  intros Hd Hu Hn. unfold get_cost_projections. rewrite Hn, Hd.
  cbn [resolve_ref_region]. now rewrite Hu.
Qed.

(** C2, amended.  Without a reference region, R11 resolves to R11_NAM, R12
    to R12_NAM and R20 to R20_NAM, and the entry point behaves as if that
    region had been given; a given reference region is used in upper
    case. *)
Theorem reference_region_resolved :
  (upper sel_node = "R11" ->
   resolve_ref_region (upper sel_node) None = Some "R11_NAM"
   /\ entry sel_node None sel_base_year sel_scenario_version sel_scenario
            sel_method sel_convergence_year sel_format
      = entry sel_node (Some "R11_NAM") sel_base_year sel_scenario_version
              sel_scenario sel_method sel_convergence_year sel_format)
  /\ (upper sel_node = "R12" ->
      resolve_ref_region (upper sel_node) None = Some "R12_NAM"
      /\ entry sel_node None sel_base_year sel_scenario_version sel_scenario
               sel_method sel_convergence_year sel_format
         = entry sel_node (Some "R12_NAM") sel_base_year sel_scenario_version
                 sel_scenario sel_method sel_convergence_year sel_format)
  /\ (upper sel_node = "R20" ->
      resolve_ref_region (upper sel_node) None = Some "R20_NAM"
      /\ entry sel_node None sel_base_year sel_scenario_version sel_scenario
               sel_method sel_convergence_year sel_format
         = entry sel_node (Some "R20_NAM") sel_base_year sel_scenario_version
                 sel_scenario sel_method sel_convergence_year sel_format)
  /\ (forall given,
        resolve_ref_region (upper sel_node) (Some given) = Some (upper given)
        /\ (In (upper sel_node) ["R11"; "R12"; "R20"] ->
            nth 1 (fst (entry sel_node (Some given) sel_base_year
                              sel_scenario_version sel_scenario sel_method
                              sel_convergence_year sel_format)) EmptyString
            = ("Selected reference region: " ++ upper given)%string)).
Proof.
  split; [|split; [|split]].
  - intros E. split; [now rewrite E | now apply (default_region_used "R11")].
  - intros E. split; [now rewrite E | now apply (default_region_used "R12")].
  - intros E. split; [now rewrite E | now apply (default_region_used "R20")].
  - intros given. split; [reflexivity|].
    intros H. unfold get_cost_projections, valid_nodes.
    apply str_in_true_iff in H. rewrite H. reflexivity.
Qed.

End EntryPoint.

Lemma invalid_node_returns_message_witness :
  ~ In (upper "R99") ["R11"; "R12"; "R20"]
  /\ sample_pipeline "R99" None "SSP2"
     = ([], Some (ErrorString
                    "Please select a valid spatial resolution: R11, R12, or R20"))
  /\ In (upper "r12") ["R11"; "R12"; "R20"]
  /\ forall s, snd (sample_pipeline "r12" None "SSP2") <> Some (ErrorString s).
Proof.
  assert (H99 : ~ In (upper "R99") ["R11"; "R12"; "R20"]).
  { cbn. intros [H | [H | [H | H]]]; try discriminate H. exact H. }
  assert (H12 : In (upper "r12") ["R11"; "R12"; "R20"]) by (cbn; auto).
  split; [exact H99|]. split.
  - exact (proj1 (invalid_node_returns_message _ _ _ _ _ "R99" 2021 "updated" "SSP2"
                    "convergence" 2050 "message" None) H99).
  - split; [exact H12|].
    exact (proj2 (invalid_node_returns_message _ _ _ _ _ "r12" 2021 "updated" "SSP2"
                    "convergence" 2050 "message" None) H12).
Defined.

Lemma reference_region_resolved_witness :
  upper "r12" = "R12"
  /\ resolve_ref_region (upper "r12") None = Some "R12_NAM"
  /\ sample_pipeline "r12" None "SSP2" = sample_pipeline "r12" (Some "R12_NAM") "SSP2"
  /\ resolve_ref_region (upper "r12") (Some "r12_weu") = Some (upper "r12_weu").
Proof.
  pose proof (reference_region_resolved
                (fun _ _ _ => Some (to_frame sample_scenarios))
                (fun df _ _ _ => Some df) (fun df _ _ _ => Some df)
                (project_all_inv_costs_spec (fun df _ _ _ _ => Some df))
                (get_final_inv_and_fom_costs_spec proj_columns
                   (fun _ x => map x proj_columns))
                "r12" 2021 "updated" "SSP2" "convergence" 2050 "message")
    as (_ & H12 & _ & Hgiven).
  assert (E : upper "r12" = "R12") by reflexivity.
  split; [exact E|]. split; [exact (proj1 (H12 E))|].
  split; [exact (proj2 (H12 E))|]. exact (proj1 (Hgiven "r12_weu")).
Defined.

(** C2 as it is written fails in its second half: a reference region given
    in lower case is not used as given. *)
Lemma given_region_is_upper_cased :
  ~ uses_given_region
  /\ nth 1 (fst (sample_pipeline "R12" (Some "r12_weu") "SSP2")) EmptyString
     = "Selected reference region: R12_WEU".
Proof.
  split; [|reflexivity].
  intros H. specialize (H "R12" "r12_weu"). discriminate H.
Qed.

(** C8 (on the spec's model of the blender and of the final formatter).
    When the entry point returns a projection for a scenario selector, it
    returns one for the selector [all], with the same columns and with
    every record of the former. *)
Theorem all_scenarios_superset
        (get_weo_region_differentiated_costs :
           string -> string -> Z -> option DataFrame)
        (project_ref_region_inv_costs_using_learning_rates
           calculate_gdp_adjusted_region_cost_ratios :
           DataFrame -> string -> string -> Z -> option DataFrame)
        (blend : DataFrame -> DataFrame -> DataFrame -> Z -> string
                 -> option DataFrame)
        (final_columns : list string)
        (surface : string -> (string -> cell) -> row)
        (sel_node : string) (sel_ref_region : option string) (sel_base_year : Z)
        (sel_scenario_version sel_scenario sel_method : string)
        (sel_convergence_year : Z) (sel_format : string) (df : DataFrame) :
  snd (get_cost_projections get_weo_region_differentiated_costs
         project_ref_region_inv_costs_using_learning_rates
         calculate_gdp_adjusted_region_cost_ratios
         (project_all_inv_costs_spec blend)
         (get_final_inv_and_fom_costs_spec final_columns surface)
         sel_node sel_ref_region sel_base_year sel_scenario_version sel_scenario
         sel_method sel_convergence_year sel_format)
  = Some (Projection df) ->
  exists df_all,
    snd (get_cost_projections get_weo_region_differentiated_costs
           project_ref_region_inv_costs_using_learning_rates
           calculate_gdp_adjusted_region_cost_ratios
           (project_all_inv_costs_spec blend)
           (get_final_inv_and_fom_costs_spec final_columns surface)
           sel_node sel_ref_region sel_base_year sel_scenario_version "all"
           sel_method sel_convergence_year sel_format)
    = Some (Projection df_all)
    /\ columns df_all = columns df
    /\ forall r, In r (rows df) -> In r (rows df_all).
Proof.
  unfold get_cost_projections.
  destruct (negb (str_in (upper sel_node) valid_nodes)); [discriminate|].
  destruct (resolve_ref_region (upper sel_node) sel_ref_region) as [ref|];
    [|discriminate].
  cbn [snd].
  destruct (get_weo_region_differentiated_costs sel_node ref sel_base_year)
    as [d1|]; [|discriminate].
  cbn [obind].
  destruct (project_ref_region_inv_costs_using_learning_rates d1 sel_node ref
              sel_base_year) as [d2|]; [|discriminate].
  cbn [obind].
  destruct (calculate_gdp_adjusted_region_cost_ratios d1 sel_node ref sel_base_year)
    as [d3|]; [|discriminate].
  cbn [obind]. unfold project_all_inv_costs_spec.
  destruct (blend d1 d2 d3 sel_convergence_year sel_scenario_version) as [full|];
    [|discriminate].
  cbn [obind String.eqb Ascii.eqb Bool.eqb get_final_inv_and_fom_costs_spec].
  intros [= <-]. eexists. split; [reflexivity|]. split; [reflexivity|].
  cbn [rows columns]. intros r Hr.
  destruct (String.eqb sel_scenario "all"); [exact Hr|].
  cbn [query columns rows] in Hr.
  apply in_map_iff in Hr as (x & <- & Hx). apply filter_In in Hx as [Hx _].
  apply in_map_iff. now exists x.
Qed.

Lemma all_scenarios_superset_witness :
  snd (sample_pipeline "r12" None "SSP2")
  = Some (Projection
            (mkDF proj_columns
               (map proj_row
                  [mkProj "updated" "SSP2" "coal_ppl" "R12_NAM" 2020 3000 100;
                   mkProj "updated" "SSP2" "coal_ppl" "R12_NAM" 2025 2900 99])))
  /\ exists df_all,
       snd (sample_pipeline "r12" None "all") = Some (Projection df_all)
       /\ columns df_all = proj_columns
       /\ forall r,
            In r (map proj_row
                    [mkProj "updated" "SSP2" "coal_ppl" "R12_NAM" 2020 3000 100;
                     mkProj "updated" "SSP2" "coal_ppl" "R12_NAM" 2025 2900 99]) ->
            In r (rows df_all).
Proof.
  assert (H : snd (sample_pipeline "r12" None "SSP2")
              = Some (Projection
                        (mkDF proj_columns
                           (map proj_row
                              [mkProj "updated" "SSP2" "coal_ppl" "R12_NAM" 2020
                                      3000 100;
                               mkProj "updated" "SSP2" "coal_ppl" "R12_NAM" 2025
                                      2900 99]))))
    by reflexivity.
  split; [exact H|].
  exact (all_scenarios_superset _ _ _ _ _ _ "r12" None 2021 "updated" "SSP2"
           "convergence" 2050 "message" _ H).
Defined.

(** C9 (on the spec's model of the learning-rate projector).  For a
    technology with cost-reduction rate [rate] and two consecutive years
    [y] and [y + 1] of the horizon, the projection holds the records of both
    years and the cost at [y + 1] is the cost at [y] multiplied by
    [1 - rate]. *)
Theorem learning_cost_step (rates : string -> option Q)
        (without_rate : RefCost -> list LearningRow)
        (base_year last_year : Z) (ref : list RefCost)
        (t : RefCost) (rate : Q) (y : Z) :
  In t ref ->
  rates (r_technology t) = Some rate ->
  base_year <= y < last_year ->
  In (mkLearning (r_technology t) y
        (learning_cost (r_inv_cost t) rate base_year y))
     (project_ref_region_inv_costs_using_learning_rates_spec
        rates without_rate base_year last_year ref)
  /\ In (mkLearning (r_technology t) (y + 1)
           (learning_cost (r_inv_cost t) rate base_year (y + 1)))
        (project_ref_region_inv_costs_using_learning_rates_spec
           rates without_rate base_year last_year ref)
  /\ (learning_cost (r_inv_cost t) rate base_year (y + 1)%Z
      == learning_cost (r_inv_cost t) rate base_year y * (1 - rate))%Q.
Proof.
  intros Ht Hr Hy.
  unfold project_ref_region_inv_costs_using_learning_rates_spec.
  repeat split.
  - apply in_flat_map. exists t. split; [exact Ht|]. rewrite Hr.
    apply in_map_iff. exists y. split; [reflexivity|]. apply in_py_range. lia.
  - apply in_flat_map. exists t. split; [exact Ht|]. rewrite Hr.
    apply in_map_iff. exists (y + 1). split; [reflexivity|]. apply in_py_range. lia.
  - unfold learning_cost.
    replace (y + 1 - base_year) with ((y - base_year) + 1) by lia.
    rewrite Qpower_plus' by lia. rewrite Qpower_1_r. ring.
Qed.

Lemma learning_cost_step_witness :
  In (mkRef "solar_pv_ppl" 1000) [mkRef "solar_pv_ppl" 1000]
  /\ (fun _ : string => Some (1 # 10)) "solar_pv_ppl" = Some (1 # 10)
  /\ 2021 <= 2030 < 2100
  /\ (learning_cost 1000 (1 # 10) 2021 2031
      == learning_cost 1000 (1 # 10) 2021 2030 * (1 - (1 # 10)))%Q.
Proof.
  assert (Hin : In (mkRef "solar_pv_ppl" 1000) [mkRef "solar_pv_ppl" 1000])
    by (left; reflexivity).
  assert (Hy : 2021 <= 2030 < 2100) by lia.
  split; [exact Hin|]. split; [reflexivity|]. split; [exact Hy|].
  exact (proj2 (proj2 (learning_cost_step (fun _ => Some (1 # 10)) (fun _ => [])
                         2021 2100 [mkRef "solar_pv_ppl" 1000]
                         (mkRef "solar_pv_ppl" 1000) (1 # 10) 2030
                         Hin eq_refl Hy))).
Defined.

(** * Further properties of [create_message_inputs] *)

Lemma filter_none {A} (f : A -> bool) (l : list A) :
  (forall x, In x l -> f x = false) -> filter f l = [].
Proof.
  induction l as [|x l IH]; simpl; intros H; [reflexivity|].
  rewrite (H x) by now left. apply IH. intros; apply H; now right.
Qed.

Lemma nonempty_In {A} (l : list A) (x : A) : In x l -> nonempty l = true.
Proof. destruct l; [contradiction | reflexivity]. Qed.

Lemma unique_from_sound (x : cell) (l seen : list cell) :
  In x (unique_from seen l) -> In x l.
Proof.
  revert seen. induction l as [|y l IH]; intros seen H; [contradiction|].
  simpl in H. destruct (existsb (cell_eqb y) seen).
  - right. now apply (IH seen).
  - destruct H as [-> | H]; [now left | right; now apply (IH (y :: seen))].
Qed.

Lemma in_product4_inv {A} (a b c d : list A) (x : A * A * A * A) :
  In x (product4 a b c d) ->
  exists h i j k, x = (h, i, j, k) /\ In h a /\ In i b /\ In j c /\ In k d.
Proof.
  unfold product4. intros H.
  apply in_flat_map in H as (h & Hh & H).
  apply in_flat_map in H as (i & Hi & H).
  apply in_flat_map in H as (j & Hj & H).
  apply in_map_iff in H as (k & <- & Hk).
  exists h, i, j, k. auto.
Qed.

(** A combination of the loop is made of values that records of the
    projection carry, each possibly from a record of its own. *)
Lemma groups_of_inv (ps : list ProjRow) (g : cell * cell * cell * cell) :
  In g (groups_of ps) ->
  exists p1 p2 p3 p4,
    In p1 ps /\ In p2 ps /\ In p3 ps /\ In p4 ps
    /\ g = (CStr (p_version p1), CStr (p_scenario p2), CStr (p_technology p3),
            CStr (p_region p4)).
Proof.
  unfold groups_of. intros H.
  apply in_product4_inv in H as (h & i & j & k & -> & Hh & Hi & Hj & Hk).
  apply unique_from_sound, in_map_iff in Hh as (p1 & <- & H1).
  apply unique_from_sound, in_map_iff in Hi as (p2 & <- & H2).
  apply unique_from_sound, in_map_iff in Hj as (p3 & <- & H3).
  apply unique_from_sound, in_map_iff in Hk as (p4 & <- & H4).
  exists p1, p2, p3, p4. auto.
Qed.

Lemma groups_of_intro (ps : list ProjRow) (p1 p2 p3 p4 : ProjRow) :
  In p1 ps -> In p2 ps -> In p3 ps -> In p4 ps ->
  In (CStr (p_version p1), CStr (p_scenario p2), CStr (p_technology p3),
      CStr (p_region p4)) (groups_of ps).
Proof.
  intros H1 H2 H3 H4. unfold groups_of. apply in_product4.
  - apply (unique_complete p_version ps p1 H1).
  - apply (unique_complete p_scenario ps p2 H2).
  - apply (unique_complete p_technology ps p3 H3).
  - apply (unique_complete p_region ps p4 H4).
Qed.

(** The records of the projection with the version of [p1], the scenario of
    [p2], the technology of [p3] and the region of [p4]. *)
Lemma in_group_of_four (p1 p2 p3 p4 p : ProjRow) :
  in_group (CStr (p_version p1), CStr (p_scenario p2), CStr (p_technology p3),
            CStr (p_region p4)) p = true
  <-> p_version p = p_version p1 /\ p_scenario p = p_scenario p2
      /\ p_technology p = p_technology p3 /\ p_region p = p_region p4.
Proof.
  unfold in_group. cbn [cell_eqb]. rewrite !andb_true_iff, !String.eqb_eq. tauto.
Qed.

Section Failures.
Variables BASE_YEAR LAST_MODEL_YEAR : Z.

Lemma hist_years_none : BASE_YEAR - 5 <= 1960 -> hist_years BASE_YEAR = [].
Proof.
  intros H. unfold hist_years, smaller_than. apply filter_none.
  intros y Hy. apply seq_years_bounds in Hy. apply Z.ltb_ge. lia.
Qed.

Lemma fut_years_none : 2110 <= LAST_MODEL_YEAR -> fut_years LAST_MODEL_YEAR = [].
Proof.
  intros H. unfold fut_years, larger_than. apply filter_none.
  intros y Hy. apply seq_years_bounds in Hy. rewrite Z.gtb_ltb. apply Z.ltb_ge. lia.
Qed.

Lemma returns_horizon (ps : list ProjRow) :
  returns BASE_YEAR LAST_MODEL_YEAR ps = true ->
  nonempty (hist_years BASE_YEAR) = true
  /\ nonempty (fut_years LAST_MODEL_YEAR) = true.
Proof.
  unfold returns. destruct (groups_of ps) as [|g gs]; [discriminate|].
  cbn [nonempty andb forallb]. unfold group_ok at 1.
  rewrite !andb_true_iff. tauto.
Qed.

(** X2.  The call raises whatever the projection when no year of the grid lies
    before [BASE_YEAR - 5] or none lies after [LAST_MODEL_YEAR]: one of the
    two [pd.concat] has nothing to concatenate. *)
Theorem create_message_inputs_needs_years_on_both_sides (ps : list ProjRow) :
  BASE_YEAR - 5 <= HORIZON_START \/ HORIZON_END <= LAST_MODEL_YEAR ->
  create_message_inputs BASE_YEAR LAST_MODEL_YEAR (to_frame ps) = None.
Proof.
  unfold HORIZON_START, HORIZON_END. intros H.
  rewrite create_message_inputs_frame.
  destruct (returns BASE_YEAR LAST_MODEL_YEAR ps) eqn:E; [|reflexivity].
  apply returns_horizon in E as [E1 E2].
  destruct H as [H | H].
  - now rewrite hist_years_none in E1.
  - now rewrite fut_years_none in E2.
Qed.

(** X3.  The call raises when a combination of a version, a scenario, a
    technology and a region that the projection holds, each possibly in a
    record of its own, has no record at a year of the grid from 2020 to
    [LAST_MODEL_YEAR] that the historical years do not cover: the lookup of
    the initial fixed cost finds nothing. *)
Theorem create_message_inputs_missing_year (ps : list ProjRow)
        (p1 p2 p3 p4 : ProjRow) (y : Z) :
  In p1 ps -> In p2 ps -> In p3 ps -> In p4 ps ->
  In y seq_years ->
  2020 <= y <= LAST_MODEL_YEAR ->
  y = 2020 \/ BASE_YEAR - 5 <= y ->
  (forall p, In p ps ->
     p_version p = p_version p1 -> p_scenario p = p_scenario p2 ->
     p_technology p = p_technology p3 -> p_region p = p_region p4 ->
     p_year p <> y) ->
  create_message_inputs BASE_YEAR LAST_MODEL_YEAR (to_frame ps) = None.
Proof.
  intros H1 H2 H3 H4 Hy Hrange Hcover Hmiss.
  rewrite create_message_inputs_frame.
  destruct (returns BASE_YEAR LAST_MODEL_YEAR ps) eqn:E; [|reflexivity].
  pose proof (returns_init BASE_YEAR LAST_MODEL_YEAR ps _ y E
                (groups_of_intro ps p1 p2 p3 p4 H1 H2 H3 H4) Hy) as Hne.
  set (g := (CStr (p_version p1), CStr (p_scenario p2), CStr (p_technology p3),
             CStr (p_region p4))) in *.
  destruct (init_rows (group_total BASE_YEAR LAST_MODEL_YEAR ps g) y)
    as [|q rest] eqn:Eq; [discriminate|].
  assert (Hq : In q (init_rows (group_total BASE_YEAR LAST_MODEL_YEAR ps g) y))
    by (rewrite Eq; now left).
  unfold init_rows in Hq. apply in_at_year in Hq as [Hq Eyear].
  apply in_from_year in Hq as [Hq _].
  assert (Ei : init_year y = y).
  { unfold init_year. destruct (Z.leb_spec y 2020); lia. }
  rewrite Ei in Eyear.
  unfold group_total in Hq. apply in_extend in Hq.
  assert (Hin : forall p, In p (filter (in_group g) ps) -> p_year p <> y).
  { intros p Hp. apply filter_In in Hp as [Hp Hg].
    apply in_group_of_four in Hg as (E1 & E2 & E3 & E4). now apply Hmiss. }
  destruct Hq as [q0 y0 Hq0 E0 Hy0 Hlt | q0 Hq0 | q0 y0 Hq0 E0 Hy0 Hlt];
    cbn in Eyear; exfalso.
  - subst y0. destruct Hcover as [-> | Hge]; [|lia]. now apply (Hin q0).
  - now apply (Hin q0).
  - lia.
Qed.

End Failures.

Lemma create_message_inputs_needs_years_on_both_sides_witness :
  (1965 - 5 <= HORIZON_START \/ HORIZON_END <= 2100)
  /\ create_message_inputs 1965 2100 (to_frame sample_projection) = None.
Proof.
  assert (H : 1965 - 5 <= HORIZON_START \/ HORIZON_END <= 2100)
    by (left; unfold HORIZON_START; lia).
  split; [exact H|].
  exact (create_message_inputs_needs_years_on_both_sides 1965 2100
           sample_projection H).
Defined.

Lemma sample_two_regions_cases (p : ProjRow) :
  In p sample_two_regions ->
  (exists y, p = sample_record y) \/ (exists y, p = sample_gas_record y).
Proof.
  unfold sample_two_regions, sample_projection. intros H.
  apply in_app_or in H as [H | H]; apply in_map_iff in H as (y & <- & _); eauto.
Qed.

Lemma create_message_inputs_missing_year_witness :
  In (sample_record 2020) sample_two_regions
  /\ In (sample_gas_record 2020) sample_two_regions
  /\ In 2020 seq_years
  /\ 2020 <= 2020 <= 2100
  /\ (forall p, In p sample_two_regions ->
        p_version p = "updated" -> p_scenario p = "SSP2" ->
        p_technology p = "coal_ppl" -> p_region p = "R12_WEU" ->
        p_year p <> 2020)
  /\ create_message_inputs 2021 2100 (to_frame sample_two_regions) = None.
Proof.
  assert (Hc : In (sample_record 2020) sample_two_regions) by in_list.
  assert (Hg : In (sample_gas_record 2020) sample_two_regions) by in_list.
  assert (Hy : In 2020 seq_years) by in_list.
  assert (Hr : 2020 <= 2020 <= 2100) by lia.
  assert (Hmiss : forall p, In p sample_two_regions ->
            p_version p = "updated" -> p_scenario p = "SSP2" ->
            p_technology p = "coal_ppl" -> p_region p = "R12_WEU" ->
            p_year p <> 2020).
  { intros p Hp _ _ Ht Hreg.
    destruct (sample_two_regions_cases p Hp) as [[y ->] | [y ->]];
      [discriminate Hreg | discriminate Ht]. }
  repeat (split; [assumption|]).
  exact (create_message_inputs_missing_year 2021 2100 sample_two_regions
           (sample_record 2020) (sample_record 2020) (sample_record 2020)
           (sample_gas_record 2020) 2020 Hc Hc Hc Hg Hy Hr (or_introl eq_refl)
           Hmiss).
Defined.

Section Coverage.
Variables BASE_YEAR LAST_MODEL_YEAR : Z.

(** X1.  The call returns on every non-empty projection in which every
    combination of a version, a scenario, a technology and a region, each
    taken from a record of the projection, has a record at 2020, at 2100
    and at every year of the grid from 2020 to [LAST_MODEL_YEAR], provided
    the grid has years before [BASE_YEAR - 5] and after
    [LAST_MODEL_YEAR]. *)
Theorem create_message_inputs_returns_on_complete (ps : list ProjRow) :
  HORIZON_START < BASE_YEAR - 5 ->
  LAST_MODEL_YEAR < HORIZON_END ->
  ps <> [] ->
  (forall p1 p2 p3 p4 y,
     In p1 ps -> In p2 ps -> In p3 ps -> In p4 ps ->
     In y seq_years ->
     y = 2020 \/ y = 2100 \/ 2020 <= y <= LAST_MODEL_YEAR ->
     exists p, In p ps
               /\ p_version p = p_version p1 /\ p_scenario p = p_scenario p2
               /\ p_technology p = p_technology p3 /\ p_region p = p_region p4
               /\ p_year p = y) ->
  exists inv fom,
    create_message_inputs BASE_YEAR LAST_MODEL_YEAR (to_frame ps) = Some (inv, fom).
Proof.
  unfold HORIZON_START, HORIZON_END. intros Hb Hl Hne Hall.
  rewrite create_message_inputs_frame.
  assert (Hret : returns BASE_YEAR LAST_MODEL_YEAR ps = true); [|rewrite Hret; eauto].
  assert (H1960 : In 1960 seq_years) by in_list.
  assert (H2020 : In 2020 seq_years) by in_list.
  assert (H2100 : In 2100 seq_years) by in_list.
  assert (H2110 : In 2110 seq_years) by in_list.
  unfold returns. apply andb_true_iff. split.
  - destruct ps as [|p ps']; [congruence|].
    apply (nonempty_In _ (key_of p)). apply own_group. now left.
  - apply forallb_forall. intros g Hg.
    destruct (groups_of_inv ps g Hg) as (p1 & p2 & p3 & p4 & I1 & I2 & I3 & I4 & ->).
    set (g := (CStr (p_version p1), CStr (p_scenario p2), CStr (p_technology p3),
               CStr (p_region p4))).
    assert (Hrec : forall y, In y seq_years ->
              y = 2020 \/ y = 2100 \/ 2020 <= y <= LAST_MODEL_YEAR ->
              exists p, In p (filter (in_group g) ps) /\ p_year p = y).
    { intros y Hy Hc.
      destruct (Hall p1 p2 p3 p4 y I1 I2 I3 I4 Hy Hc)
        as (p & Hp & E1 & E2 & E3 & E4 & Ey).
      exists p. split; [|exact Ey]. apply filter_In. split; [exact Hp|].
      now apply in_group_of_four. }
    unfold group_ok. rewrite !andb_true_iff. repeat split.
    + apply (nonempty_In _ 1960). apply in_hist_years. split; [exact H1960 | lia].
    + apply (nonempty_In _ 2110). apply in_fut_years. split; [exact H2110 | lia].
    + apply forallb_forall. intros y Hy.
      pose proof (seq_years_bounds y Hy) as Hbd.
      assert (Hex : exists q, In q (group_total BASE_YEAR LAST_MODEL_YEAR ps g)
                              /\ p_year q = init_year y).
      { unfold group_total.
        assert (Hiy : In (init_year y) seq_years /\ 2020 <= init_year y).
        { unfold init_year. destruct (Z.leb_spec y 2020); split; auto; lia. }
        destruct Hiy as [Hiy Hge].
        destruct (Z.le_gt_cases (init_year y) LAST_MODEL_YEAR) as [Hle | Hgt].
        - destruct (Hrec (init_year y) Hiy) as (p & Hp & Ey); [auto|].
          exists p. split; [|exact Ey]. apply in_extend. now apply from_tech.
        - destruct (Hrec 2100 H2100) as (p & Hp & Ey); [auto|].
          exists (set_year (init_year y) p). split; [|reflexivity].
          apply in_extend. apply from_fut; auto; lia. }
      destruct Hex as (q & Hq & Eq).
      apply (nonempty_In _ q). unfold init_rows.
      apply in_at_year. split; [|exact Eq].
      apply in_from_year. split; [exact Hq|].
      rewrite Eq. unfold init_year. destruct (Z.leb_spec y 2020); lia.
Qed.

End Coverage.

Lemma sample_projection_inv (p : ProjRow) :
  In p sample_projection -> exists y, p = sample_record y.
Proof.
  unfold sample_projection. intros H. apply in_map_iff in H as (y & <- & _). eauto.
Qed.

Lemma sample_projection_complete (y : Z) :
  In y seq_years -> y = 2020 \/ y = 2100 \/ 2020 <= y <= 2100 ->
  In (sample_record y) sample_projection.
Proof.
  intros Hy Hc. unfold sample_projection. apply in_map.
  vm_compute in Hy.
  repeat (destruct Hy as [<- | Hy]; [first [solve [in_list] | exfalso; lia]|]).
  contradiction.
Qed.

Lemma create_message_inputs_returns_on_complete_witness :
  HORIZON_START < 2021 - 5
  /\ 2100 < HORIZON_END
  /\ sample_projection <> []
  /\ exists inv fom,
       create_message_inputs 2021 2100 (to_frame sample_projection)
       = Some (inv, fom).
Proof.
  assert (Hb : HORIZON_START < 2021 - 5) by (unfold HORIZON_START; lia).
  assert (Hl : 2100 < HORIZON_END) by (unfold HORIZON_END; lia).
  assert (Hne : sample_projection <> []) by discriminate.
  repeat (split; [assumption|]).
  apply (create_message_inputs_returns_on_complete 2021 2100 sample_projection
           Hb Hl Hne).
  intros p1 p2 p3 p4 y I1 I2 I3 I4 Hy Hc.
  destruct (sample_projection_inv p1 I1) as [y1 ->].
  destruct (sample_projection_inv p2 I2) as [y2 ->].
  destruct (sample_projection_inv p3 I3) as [y3 ->].
  destruct (sample_projection_inv p4 I4) as [y4 ->].
  exists (sample_record y). repeat split.
  now apply sample_projection_complete.
Defined.

Section Records.
Variables BASE_YEAR LAST_MODEL_YEAR : Z.

(** X4.  Every investment-cost row is a record of the projection under its own
    keys and with its own investment cost, at the record's year, or, for a
    record at 2020, at a year of the grid before [BASE_YEAR - 5], or, for a
    record at 2100, at a year of the grid after [LAST_MODEL_YEAR]: no
    investment cost is computed. *)
Theorem inv_rows_come_from_records (ps : list ProjRow) (inv fom : DataFrame) :
  create_message_inputs BASE_YEAR LAST_MODEL_YEAR (to_frame ps) = Some (inv, fom) ->
  forall r, In r (rows inv) ->
  exists p y,
    In p ps
    /\ same_keys (columns inv) r p
    /\ get (columns inv) r "year_vtg" = CInt y
    /\ get (columns inv) r "value" = CNum (p_inv_cost p)
    /\ (y = p_year p
        \/ (p_year p = 2020 /\ In y seq_years /\ y < BASE_YEAR - 5)
        \/ (p_year p = 2100 /\ In y seq_years /\ LAST_MODEL_YEAR < y)).
Proof.
  intros Hcall r Hr.
  apply create_message_inputs_Some in Hcall as (_ & -> & _).
  cbn [rows columns] in *.
  apply in_msg_inv_rows in Hr as (g & q & _ & Hq & ->).
  unfold group_total in Hq. apply in_extend in Hq.
  destruct Hq as [q0 y0 Hq0 E Hy0 Hlt0 | q0 Hq0 | q0 y0 Hq0 E Hy0 Hlt0];
    apply filter_In in Hq0 as [Hq0 _].
  - exists q0, y0. repeat split; auto.
  - exists q0, (p_year q0). repeat split; auto.
  - exists q0, y0. repeat split; auto.
Qed.

(** X5.  Every record of the projection is a row of the investment-cost frame,
    and every record at 2020 is there once more at each year of the grid
    before [BASE_YEAR - 5]. *)
Theorem records_kept_and_anchor_repeated (ps : list ProjRow) (inv fom : DataFrame) :
  create_message_inputs BASE_YEAR LAST_MODEL_YEAR (to_frame ps) = Some (inv, fom) ->
  forall p, In p ps ->
  In (inv_row p) (rows inv)
  /\ (p_year p = 2020 ->
      forall y, In y seq_years -> y < BASE_YEAR - 5 ->
      In (inv_row (set_year y p)) (rows inv)).
Proof.
  intros Hcall p Hp.
  apply create_message_inputs_Some in Hcall as (_ & -> & _).
  cbn [rows columns]. destruct (own_group ps p Hp) as [Hg Hin].
  assert (Hf : In p (filter (in_group (key_of p)) ps)) by (apply filter_In; auto).
  split.
  - apply in_msg_inv_rows. exists (key_of p), p. repeat split; [exact Hg|].
    unfold group_total. apply in_extend. now apply from_tech.
  - intros E y Hy Hlt. apply in_msg_inv_rows.
    exists (key_of p), (set_year y p). repeat split; [exact Hg|].
    unfold group_total. apply in_extend. now apply from_hist.
Qed.

(** X6.  A year from [BASE_YEAR - 5] to [LAST_MODEL_YEAR] at which the projection
    has no record has no row in the investment-cost frame: the years
    between the historical years and the first projected year are not
    filled. *)
Theorem inv_years_not_filled (ps : list ProjRow) (inv fom : DataFrame) (y : Z) :
  create_message_inputs BASE_YEAR LAST_MODEL_YEAR (to_frame ps) = Some (inv, fom) ->
  BASE_YEAR - 5 <= y <= LAST_MODEL_YEAR ->
  (forall p, In p ps -> p_year p <> y) ->
  forall r, In r (rows inv) -> get (columns inv) r "year_vtg" <> CInt y.
Proof.
  intros Hcall Hy Hnone r Hr Hyear.
  apply create_message_inputs_Some in Hcall as (_ & -> & _).
  cbn [rows columns] in *.
  apply in_msg_inv_rows in Hr as (g & q & _ & Hq & ->).
  cbn in Hyear. injection Hyear as Hyear.
  unfold group_total in Hq. apply in_extend in Hq.
  destruct Hq as [q0 y0 Hq0 E Hy0 Hlt0 | q0 Hq0 | q0 y0 Hq0 E Hy0 Hlt0];
    cbn in Hyear; [lia| |lia].
  apply filter_In in Hq0 as [Hq0 _]. now apply (Hnone q0).
Qed.

(** X7.  For every record of the projection and every year of the grid that is
    not after the record's year, the fixed-cost frame has a row of that
    vintage year at the record's year as activity year. *)
Theorem fom_rows_for_every_vintage (ps : list ProjRow) (inv fom : DataFrame) :
  create_message_inputs BASE_YEAR LAST_MODEL_YEAR (to_frame ps) = Some (inv, fom) ->
  forall p y, In p ps -> In y seq_years -> y <= p_year p ->
  exists r, In r (rows fom)
            /\ same_keys (columns fom) r p
            /\ get (columns fom) r "year_vtg" = CInt y
            /\ get (columns fom) r "year_act" = CInt (p_year p).
Proof.
  intros Hcall p y Hp Hy Hle.
  apply create_message_inputs_Some in Hcall as (_ & _ & ->).
  cbn [rows columns]. destruct (own_group ps p Hp) as [Hg Hin].
  exists (fom_row y (init_val_of
                       (group_total BASE_YEAR LAST_MODEL_YEAR ps (key_of p)) y) p).
  split; [|repeat split].
  apply in_msg_fom_rows. exists (key_of p), y, p. repeat split; auto.
  unfold group_total. apply in_extend. apply from_tech. apply filter_In. auto.
Qed.

(** X8.  A fixed-cost row whose activity year is after the end of the horizon
    has no value: the left merge finds no year beyond 2110. *)
Theorem fom_value_missing_after_horizon (ps : list ProjRow) (inv fom : DataFrame) :
  create_message_inputs BASE_YEAR LAST_MODEL_YEAR (to_frame ps) = Some (inv, fom) ->
  forall r a, In r (rows fom) ->
  get (columns fom) r "year_act" = CInt a ->
  HORIZON_END < a ->
  get (columns fom) r "value" = CNaN.
Proof.
  unfold HORIZON_END. intros Hcall r a Hr Ha Hlt.
  apply create_message_inputs_Some in Hcall as (_ & _ & ->).
  cbn [rows columns] in *.
  apply in_msg_fom_rows in Hr as (g & y & p & _ & _ & _ & _ & ->).
  cbn in Ha. injection Ha as <-.
  rewrite fom_row_value. unfold fom_value.
  destruct (Z.leb_spec (p_year p) 2020); [lia|].
  destruct (Z.ltb_spec (p_year p) 2111); [lia|].
  now rewrite andb_false_r.
Qed.

(** X9.  For a vintage year before 2020, a fixed-cost row of activity year [a]
    after 2020, up to the end of the horizon, carries the fixed cost
    recorded at 2020 multiplied by [(1 - 0.0025)] to the power [a - v]: the
    exponent counts the years since the vintage year, not since 2020. *)
Theorem fix_cost_of_early_vintages (ps : list ProjRow) (inv fom : DataFrame) :
  create_message_inputs BASE_YEAR LAST_MODEL_YEAR (to_frame ps) = Some (inv, fom) ->
  forall r v a, In r (rows fom) ->
  get (columns fom) r "year_vtg" = CInt v ->
  get (columns fom) r "year_act" = CInt a ->
  v < 2020 -> 2020 < a <= HORIZON_END ->
  exists g q,
    In g (groups_of ps)
    /\ In q (group_total BASE_YEAR LAST_MODEL_YEAR ps g)
    /\ p_year q = 2020
    /\ same_keys (columns fom) r q
    /\ get (columns fom) r "value" = CNum (p_fix_cost q * fom_factor ^ (a - v)).
Proof.
  unfold HORIZON_END. intros Hcall r v a Hr Hv Ha Hlt Hrange.
  apply create_message_inputs_Some in Hcall as (Hret & _ & ->).
  cbn [rows columns] in *.
  apply in_msg_fom_rows in Hr as (g & y & p & Hg & Hy & Hp & Hle & ->).
  cbn in Hv, Ha. injection Hv as <-. injection Ha as <-.
  destruct (init_val_of_head _ y (returns_init BASE_YEAR LAST_MODEL_YEAR ps g y
                                    Hret Hg Hy)) as (q & Hq & Eq & Ev).
  assert (Ei : init_year y = 2020).
  { unfold init_year. destruct (Z.leb_spec y 2020); lia. }
  rewrite Ei in Eq. exists g, q.
  split; [exact Hg|]. split; [exact Hq|]. split; [exact Eq|]. split.
  - apply same_keys_fom_row.
    rewrite <- (group_total_keys _ _ _ _ _ Hp).
    now rewrite <- (group_total_keys _ _ _ _ _ Hq).
  - rewrite fom_row_value, Ev. unfold fom_value.
    destruct (Z.leb_spec (p_year p) 2020); [lia|].
    destruct (Z.leb_spec y (p_year p)); [|lia].
    destruct (Z.ltb_spec (p_year p) 2111); [reflexivity | lia].
Qed.

End Records.

Lemma fom_factor_le_1 : (fom_factor <= 1)%Q.
Proof. vm_compute. discriminate. Qed.

Lemma Qpower_le_1 (q : Q) (n : Z) :
  (0 <= q)%Q -> (q <= 1)%Q -> 0 <= n -> (q ^ n <= 1)%Q.
Proof.
  intros H0 H1 Hn. revert n Hn. apply natlike_ind.
  - apply Qle_refl.
  - intros n Hn IH. unfold Z.succ. rewrite Qpower_plus' by lia.
    rewrite Qpower_1_r. rewrite <- (Qmult_1_l 1).
    apply Qmult_le_compat_nonneg; split; auto. now apply Qpower_0_le.
Qed.

Lemma Qpower_antitone (q : Q) (n m : Z) :
  (0 <= q)%Q -> (q <= 1)%Q -> 0 <= n <= m -> (q ^ m <= q ^ n)%Q.
Proof.
  intros H0 H1 Hnm. destruct (Z.eq_dec n m) as [-> | Hne]; [apply Qle_refl|].
  replace m with (n + (m - n)) by lia. rewrite Qpower_plus' by lia.
  rewrite <- (Qmult_1_r (q ^ n)) at 2.
  apply Qmult_le_compat_nonneg; split.
  - now apply Qpower_0_le.
  - apply Qle_refl.
  - now apply Qpower_0_le.
  - apply Qpower_le_1; auto. lia.
Qed.

Lemma fom_row_keys_eq (y1 y2 : Z) (v1 v2 : Q) (p1 p2 : ProjRow) :
  (forall c, In c ("year_vtg" :: group_cols) ->
     get fom_columns (fom_row y1 v1 p1) c = get fom_columns (fom_row y2 v2 p2) c) ->
  y1 = y2 /\ key_of p1 = key_of p2.
Proof.
  intros H.
  assert (Hv := H "year_vtg" (or_introl eq_refl)).
  assert (H1 := H "scenario_version" (or_intror (or_introl eq_refl))).
  assert (H2 := H "scenario" (or_intror (or_intror (or_introl eq_refl)))).
  assert (H3 := H "node_loc"
                  (or_intror (or_intror (or_intror (or_introl eq_refl))))).
  assert (H4 := H "technology"
                  (or_intror (or_intror (or_intror (or_intror (or_introl eq_refl)))))).
  cbn in Hv, H1, H2, H3, H4. unfold key_of. split; congruence.
Qed.

Section Monotone.
Variables BASE_YEAR LAST_MODEL_YEAR : Z.

(** X10.  When no cost of the projection is negative, the fixed cost of a vintage
    never increases with the activity year after 2020: of two rows of the
    same combination and vintage year, with activity years after 2020 and
    up to the end of the horizon, the later one has the smaller or equal
    value. *)
Theorem fix_cost_never_increases (ps : list ProjRow) (inv fom : DataFrame) :
  nonneg_costs ps = true ->
  create_message_inputs BASE_YEAR LAST_MODEL_YEAR (to_frame ps) = Some (inv, fom) ->
  forall r1 r2 a1 a2,
    In r1 (rows fom) -> In r2 (rows fom) ->
    (forall c, In c ("year_vtg" :: group_cols) ->
       get (columns fom) r1 c = get (columns fom) r2 c) ->
    get (columns fom) r1 "year_act" = CInt a1 ->
    get (columns fom) r2 "year_act" = CInt a2 ->
    2020 < a1 -> a1 <= a2 -> a2 <= HORIZON_END ->
    exists q1 q2,
      get (columns fom) r1 "value" = CNum q1
      /\ get (columns fom) r2 "value" = CNum q2
      /\ (q2 <= q1)%Q.
Proof.
  unfold HORIZON_END. intros Hnn Hcall r1 r2 a1 a2 Hr1 Hr2 Hkeys Ha1 Ha2 H1 H12 H2.
  apply create_message_inputs_Some in Hcall as (Hret & _ & ->).
  cbn [rows columns] in *.
  apply in_msg_fom_rows in Hr1 as (g1 & y1 & p1 & Hg1 & Hy1 & Hp1 & Hle1 & ->).
  apply in_msg_fom_rows in Hr2 as (g2 & y2 & p2 & Hg2 & Hy2 & Hp2 & Hle2 & ->).
  apply fom_row_keys_eq in Hkeys as [<- Hk].
  assert (Eg : g2 = g1).
  { rewrite (group_total_keys _ _ _ _ _ Hp1), (group_total_keys _ _ _ _ _ Hp2).
    now symmetry. }
  subst g2. cbn in Ha1, Ha2. injection Ha1 as <-. injection Ha2 as <-.
  set (ct := group_total BASE_YEAR LAST_MODEL_YEAR ps g1) in *.
  assert (Hinit : (0 <= init_val_of ct y1)%Q).
  { destruct (init_val_of_head ct y1
                (returns_init BASE_YEAR LAST_MODEL_YEAR ps g1 y1 Hret Hg1 Hy1))
      as (q & Hq & _ & ->).
    apply group_total_in in Hq as (q' & Hq' & _ & _ & _ & _ & _ & Ef & _).
    unfold nonneg_costs in Hnn. rewrite forallb_forall in Hnn.
    specialize (Hnn q' Hq'). apply andb_true_iff in Hnn as [_ Hf].
    apply Qle_bool_iff in Hf. now rewrite <- Ef. }
  rewrite !fom_row_value. unfold fom_value.
  destruct (Z.leb_spec (p_year p1) 2020); [lia|].
  destruct (Z.leb_spec (p_year p2) 2020); [lia|].
  destruct (Z.leb_spec y1 (p_year p1)); [|lia].
  destruct (Z.leb_spec y1 (p_year p2)); [|lia].
  destruct (Z.ltb_spec (p_year p1) 2111); [|lia].
  destruct (Z.ltb_spec (p_year p2) 2111); [|lia].
  cbn [andb]. do 2 eexists. split; [reflexivity|]. split; [reflexivity|].
  apply Qmult_le_compat_nonneg; split.
  - exact Hinit.
  - apply Qle_refl.
  - apply Qpower_0_le, fom_factor_nonneg.
  - apply Qpower_antitone; [apply fom_factor_nonneg | apply fom_factor_le_1 | lia].
Qed.

End Monotone.

Lemma sample_projection_years (p : ProjRow) :
  In p sample_projection -> 2020 <= p_year p <= 2100.
Proof.
  unfold sample_projection. intros H. apply in_map_iff in H as (y & <- & Hy).
  vm_compute in Hy. cbn [sample_record p_year].
  repeat (destruct Hy as [<- | Hy]; [lia|]). contradiction.
Qed.

Lemma sample_beyond_call :
  create_message_inputs 2021 2100 (to_frame sample_beyond)
  = Some (mkDF inv_columns (msg_inv_rows 2021 2100 sample_beyond),
          mkDF fom_columns (msg_fom_rows 2021 2100 sample_beyond)).
Proof.
  rewrite create_message_inputs_frame.
  assert (H : returns 2021 2100 sample_beyond = true) by (vm_compute; reflexivity).
  now rewrite H.
Qed.

Lemma inv_rows_come_from_records_witness :
  create_message_inputs 2021 2100 (to_frame sample_projection)
  = Some (sample_output 2021)
  /\ In (inv_row (set_year 1990 (sample_record 2020)))
        (rows (fst (sample_output 2021)))
  /\ exists p y,
       In p sample_projection
       /\ same_keys (columns (fst (sample_output 2021)))
                    (inv_row (set_year 1990 (sample_record 2020))) p
       /\ get (columns (fst (sample_output 2021)))
              (inv_row (set_year 1990 (sample_record 2020))) "year_vtg" = CInt y
       /\ get (columns (fst (sample_output 2021)))
              (inv_row (set_year 1990 (sample_record 2020))) "value"
          = CNum (p_inv_cost p)
       /\ (y = p_year p
           \/ (p_year p = 2020 /\ In y seq_years /\ y < 2021 - 5)
           \/ (p_year p = 2100 /\ In y seq_years /\ 2100 < y)).
Proof.
  assert (Hin : In (inv_row (set_year 1990 (sample_record 2020)))
                   (rows (fst (sample_output 2021)))).
  { apply sample_inv_row_in. in_list. }
  split; [exact sample_call_2021|]. split; [exact Hin|].
  exact (inv_rows_come_from_records 2021 2100 sample_projection
           (fst (sample_output 2021)) (snd (sample_output 2021))
           sample_call_2021 _ Hin).
Defined.

Lemma records_kept_and_anchor_repeated_witness :
  create_message_inputs 2021 2100 (to_frame sample_projection)
  = Some (sample_output 2021)
  /\ In (sample_record 2020) sample_projection
  /\ In 1960 seq_years
  /\ 1960 < 2021 - 5
  /\ In (inv_row (sample_record 2020)) (rows (fst (sample_output 2021)))
  /\ In (inv_row (set_year 1960 (sample_record 2020)))
        (rows (fst (sample_output 2021))).
Proof.
  assert (Hp : In (sample_record 2020) sample_projection) by in_list.
  assert (Hy : In 1960 seq_years) by in_list.
  assert (Hlt : 1960 < 2021 - 5) by lia.
  destruct (records_kept_and_anchor_repeated 2021 2100 sample_projection
              (fst (sample_output 2021)) (snd (sample_output 2021))
              sample_call_2021 (sample_record 2020) Hp) as [Hkept Hrep].
  split; [exact sample_call_2021|]. repeat (split; [assumption|]).
  exact (Hrep eq_refl 1960 Hy Hlt).
Defined.

Lemma inv_years_not_filled_witness :
  create_message_inputs 2020 2100 (to_frame sample_projection)
  = Some (sample_output 2020)
  /\ 2020 - 5 <= 2015 <= 2100
  /\ (forall p, In p sample_projection -> p_year p <> 2015)
  /\ forall r, In r (rows (fst (sample_output 2020))) ->
               get (columns (fst (sample_output 2020))) r "year_vtg" <> CInt 2015.
Proof.
  assert (Hy : 2020 - 5 <= 2015 <= 2100) by lia.
  assert (Hnone : forall p, In p sample_projection -> p_year p <> 2015).
  { intros p Hp. apply sample_projection_years in Hp. lia. }
  split; [exact sample_call_2020|]. split; [exact Hy|]. split; [exact Hnone|].
  exact (inv_years_not_filled 2020 2100 sample_projection
           (fst (sample_output 2020)) (snd (sample_output 2020)) 2015
           sample_call_2020 Hy Hnone).
Defined.

Lemma fom_rows_for_every_vintage_witness :
  create_message_inputs 2021 2100 (to_frame sample_projection)
  = Some (sample_output 2021)
  /\ In (sample_record 2030) sample_projection
  /\ In 2025 seq_years
  /\ 2025 <= p_year (sample_record 2030)
  /\ exists r, In r (rows (snd (sample_output 2021)))
               /\ same_keys (columns (snd (sample_output 2021))) r
                            (sample_record 2030)
               /\ get (columns (snd (sample_output 2021))) r "year_vtg" = CInt 2025
               /\ get (columns (snd (sample_output 2021))) r "year_act"
                  = CInt (p_year (sample_record 2030)).
Proof.
  assert (Hp : In (sample_record 2030) sample_projection) by in_list.
  assert (Hy : In 2025 seq_years) by in_list.
  assert (Hle : 2025 <= p_year (sample_record 2030)) by (cbn; lia).
  split; [exact sample_call_2021|]. repeat (split; [assumption|]).
  exact (fom_rows_for_every_vintage 2021 2100 sample_projection
           (fst (sample_output 2021)) (snd (sample_output 2021))
           sample_call_2021 (sample_record 2030) 2025 Hp Hy Hle).
Defined.

Lemma fom_value_missing_after_horizon_witness :
  create_message_inputs 2021 2100 (to_frame sample_beyond)
  = Some (mkDF inv_columns (msg_inv_rows 2021 2100 sample_beyond),
          mkDF fom_columns (msg_fom_rows 2021 2100 sample_beyond))
  /\ In (fom_row 2100
           (init_val_of (group_total 2021 2100 sample_beyond sample_key) 2100)
           (sample_record 2115))
        (msg_fom_rows 2021 2100 sample_beyond)
  /\ HORIZON_END < 2115
  /\ get fom_columns
         (fom_row 2100
            (init_val_of (group_total 2021 2100 sample_beyond sample_key) 2100)
            (sample_record 2115)) "value" = CNaN.
Proof.
  assert (Hin : In (fom_row 2100
                      (init_val_of (group_total 2021 2100 sample_beyond sample_key)
                                   2100)
                      (sample_record 2115))
                   (msg_fom_rows 2021 2100 sample_beyond)).
  { apply in_msg_fom_rows. exists sample_key, 2100, (sample_record 2115).
    split; [in_list|]. split; [in_list|]. split; [in_list|].
    split; [cbn; lia | reflexivity]. }
  assert (Hlt : HORIZON_END < 2115) by (unfold HORIZON_END; lia).
  split; [exact sample_beyond_call|]. split; [exact Hin|]. split; [exact Hlt|].
  exact (fom_value_missing_after_horizon 2021 2100 sample_beyond _ _
           sample_beyond_call _ 2115 Hin eq_refl Hlt).
Defined.

Lemma fix_cost_of_early_vintages_witness :
  create_message_inputs 2021 2100 (to_frame sample_projection)
  = Some (sample_output 2021)
  /\ In (sample_fom_row 2021 2015 (sample_record 2030))
        (rows (snd (sample_output 2021)))
  /\ 2015 < 2020
  /\ 2020 < 2030 <= HORIZON_END
  /\ exists g q,
       In g (groups_of sample_projection)
       /\ In q (group_total 2021 2100 sample_projection g)
       /\ p_year q = 2020
       /\ same_keys (columns (snd (sample_output 2021)))
                    (sample_fom_row 2021 2015 (sample_record 2030)) q
       /\ get (columns (snd (sample_output 2021)))
              (sample_fom_row 2021 2015 (sample_record 2030)) "value"
          = CNum (p_fix_cost q * fom_factor ^ (2030 - 2015)).
Proof.
  assert (Hin : In (sample_fom_row 2021 2015 (sample_record 2030))
                   (rows (snd (sample_output 2021)))).
  { apply sample_fom_row_in; [in_list | in_list | cbn; lia]. }
  assert (Hv : 2015 < 2020) by lia.
  assert (Ha : 2020 < 2030 <= HORIZON_END) by (unfold HORIZON_END; lia).
  split; [exact sample_call_2021|]. repeat (split; [assumption|]).
  exact (fix_cost_of_early_vintages 2021 2100 sample_projection
           (fst (sample_output 2021)) (snd (sample_output 2021))
           sample_call_2021 _ 2015 2030 Hin eq_refl eq_refl Hv Ha).
Defined.

Lemma fix_cost_never_increases_witness :
  nonneg_costs sample_projection = true
  /\ create_message_inputs 2021 2100 (to_frame sample_projection)
     = Some (sample_output 2021)
  /\ In (sample_fom_row 2021 2025 (sample_record 2030))
        (rows (snd (sample_output 2021)))
  /\ In (sample_fom_row 2021 2025 (sample_record 2035))
        (rows (snd (sample_output 2021)))
  /\ 2020 < 2030 /\ 2030 <= 2035 /\ 2035 <= HORIZON_END
  /\ exists q1 q2,
       get (columns (snd (sample_output 2021)))
           (sample_fom_row 2021 2025 (sample_record 2030)) "value" = CNum q1
       /\ get (columns (snd (sample_output 2021)))
              (sample_fom_row 2021 2025 (sample_record 2035)) "value" = CNum q2
       /\ (q2 <= q1)%Q.
Proof.
  assert (Hnn : nonneg_costs sample_projection = true) by (vm_compute; reflexivity).
  assert (H1 : In (sample_fom_row 2021 2025 (sample_record 2030))
                  (rows (snd (sample_output 2021)))).
  { apply sample_fom_row_in; [in_list | in_list | cbn; lia]. }
  assert (H2 : In (sample_fom_row 2021 2025 (sample_record 2035))
                  (rows (snd (sample_output 2021)))).
  { apply sample_fom_row_in; [in_list | in_list | cbn; lia]. }
  assert (Ha : 2020 < 2030) by lia.
  assert (Hb : 2030 <= 2035) by lia.
  assert (Hc : 2035 <= HORIZON_END) by (unfold HORIZON_END; lia).
  split; [exact Hnn|]. split; [exact sample_call_2021|].
  repeat (split; [assumption|]).
  apply (fix_cost_never_increases 2021 2100 sample_projection
           (fst (sample_output 2021)) (snd (sample_output 2021))
           Hnn sample_call_2021 _ _ 2030 2035 H1 H2); auto.
  intros c Hcol. cbn in Hcol.
  repeat (destruct Hcol as [<- | Hcol]; [reflexivity|]). contradiction.
Defined.

(** * Further properties of [get_cost_projections] *)

Lemma upper_ascii_idempotent (c : ascii) :
  upper_ascii (upper_ascii c) = upper_ascii c.
Proof.
  destruct c as [[] [] [] [] [] [] [] []]; reflexivity.
Qed.

Lemma upper_idempotent (s : string) : upper (upper s) = upper s.
Proof.
  induction s as [|c s IH]; simpl; [reflexivity|].
  now rewrite upper_ascii_idempotent, IH.
Qed.

Section EntryPointCases.

Variable get_weo_region_differentiated_costs :
  string -> string -> Z -> option DataFrame.
Variable project_ref_region_inv_costs_using_learning_rates :
  DataFrame -> string -> string -> Z -> option DataFrame.
Variable calculate_gdp_adjusted_region_cost_ratios :
  DataFrame -> string -> string -> Z -> option DataFrame.
Variable project_all_inv_costs :
  DataFrame -> DataFrame -> DataFrame -> Z -> string -> string -> option DataFrame.
Variable get_final_inv_and_fom_costs : DataFrame -> string -> option DataFrame.

Local Abbreviation entry_point :=
  (get_cost_projections get_weo_region_differentiated_costs
     project_ref_region_inv_costs_using_learning_rates
     calculate_gdp_adjusted_region_cost_ratios project_all_inv_costs
     get_final_inv_and_fom_costs).

Variables (sel_node : string) (sel_base_year : Z)
          (sel_scenario_version sel_scenario sel_method : string)
          (sel_convergence_year : Z) (sel_format : string).

(** X11.  The reference region is read without regard to case: two given regions
    with the same upper-cased form give the same call, prints included, and
    so does a region and its upper-cased form. *)
Theorem reference_region_case_insensitive (ref1 ref2 : string) :
  (upper ref1 = upper ref2 ->
   entry_point sel_node (Some ref1) sel_base_year sel_scenario_version
               sel_scenario sel_method sel_convergence_year sel_format
   = entry_point sel_node (Some ref2) sel_base_year sel_scenario_version
                 sel_scenario sel_method sel_convergence_year sel_format)
  /\ entry_point sel_node (Some ref1) sel_base_year sel_scenario_version
                 sel_scenario sel_method sel_convergence_year sel_format
     = entry_point sel_node (Some (upper ref1)) sel_base_year sel_scenario_version
                   sel_scenario sel_method sel_convergence_year sel_format.
Proof.
  unfold get_cost_projections. cbn [resolve_ref_region]. split.
  - intros ->. reflexivity.
  - now rewrite upper_idempotent.
Qed.

(** X12.  For a valid node the five lines of the selection are printed, whatever
    the stages do afterwards: the default covers every valid node, so the
    reference region is never left unset when its line is built. *)
Theorem valid_node_prints_selection (sel_ref_region : option string) :
  In (upper sel_node) ["R11"; "R12"; "R20"] ->
  fst (entry_point sel_node sel_ref_region sel_base_year sel_scenario_version
                   sel_scenario sel_method sel_convergence_year sel_format)
  = [("Selected node: " ++ upper sel_node)%string;
     ("Selected reference region: "
      ++ match sel_ref_region with
         | Some given => upper given
         | None => (upper sel_node ++ "_NAM")%string
         end)%string;
     ("Selected base year: " ++ str_of_int sel_base_year)%string;
     ("Selected scenario version: " ++ sel_scenario_version)%string;
     ("Selected scenario: " ++ sel_scenario)%string].
Proof.
  intros H. unfold get_cost_projections, valid_nodes.
  rewrite (proj2 (str_in_true_iff _ _) H). cbn [negb].
  destruct sel_ref_region as [given|]; [reflexivity|].
  destruct H as [<- | [<- | [<- | []]]]; reflexivity.
Qed.

End EntryPointCases.

Lemma reference_region_case_insensitive_witness :
  upper "r12_weu" = upper "R12_Weu"
  /\ sample_pipeline "r12" (Some "r12_weu") "SSP2"
     = sample_pipeline "r12" (Some "R12_Weu") "SSP2".
Proof.
  assert (H : upper "r12_weu" = upper "R12_Weu") by reflexivity.
  split; [exact H|].
  exact (proj1 (reference_region_case_insensitive _ _ _ _ _ "r12" 2021 "updated"
                  "SSP2" "convergence" 2050 "message" "r12_weu" "R12_Weu") H).
Defined.

Lemma valid_node_prints_selection_witness :
  In (upper "r20") ["R11"; "R12"; "R20"]
  /\ fst (sample_pipeline "r20" None "all")
     = ["Selected node: R20"; "Selected reference region: R20_NAM";
        "Selected base year: 2021"; "Selected scenario version: updated";
        "Selected scenario: all"].
Proof.
  assert (H : In (upper "r20") ["R11"; "R12"; "R20"]) by (cbn; auto).
  split; [exact H|].
  exact (valid_node_prints_selection
           (fun _ _ _ => Some (to_frame sample_scenarios))
           (fun df _ _ _ => Some df) (fun df _ _ _ => Some df)
           (project_all_inv_costs_spec (fun df _ _ _ _ => Some df))
           (get_final_inv_and_fom_costs_spec proj_columns
              (fun _ x => map x proj_columns))
           "r20" 2021 "updated" "all" "convergence" 2050 "message" None H).
Defined.

(** * Properties of [add_data] *)

Section AddDataLoop.
Variables World Info Data : Type.
Variable call : data_function -> World -> World * option Data.
Variable add_par_data : World -> Data -> bool -> World * bool.

Local Abbreviation run := (run_data_funcs World Data call add_par_data).

(** The loop over a list followed by another list is the loop over the
    first and then, if it ran to its end, the loop over the second. *)
Lemma run_data_funcs_app (dry_run : bool) (l1 l2 : list data_function)
      (w : World) (log : list string) :
  run dry_run (l1 ++ l2) w log
  = let '(w1, log1, completed) := run dry_run l1 w log in
    if completed then run dry_run l2 w1 log1 else (w1, log1, false).
Proof.
  revert w log. induction l1 as [|f l1 IH]; intros w log; [reflexivity|].
  cbn [app run_data_funcs].
  destruct (call f w) as [w1 [d|]]; [|reflexivity].
  destruct (add_par_data w1 d dry_run) as [w2 []]; [apply IH | reflexivity].
Qed.

(** The lines logged by the loop are the messages of the functions it
    reached, in order; when it stops early the last message names the
    function that stopped it. *)
Lemma run_data_funcs_log (dry_run : bool) (fs : list data_function)
      (w : World) (log : list string) :
  exists k : nat,
    (k <= List.length fs)%nat
    /\ snd (fst (run dry_run fs w log)) = log ++ map from_message (firstn k fs)
    /\ (snd (run dry_run fs w log) = true -> k = List.length fs)
    /\ (snd (run dry_run fs w log) = false -> (1 <= k)%nat).
Proof.
  revert w log. induction fs as [|f fs IH]; intros w log.
  - exists O. cbn. rewrite app_nil_r. repeat split; auto; discriminate.
  - cbn [run_data_funcs].
    destruct (call f w) as [w1 [d|]].
    + destruct (add_par_data w1 d dry_run) as [w2 []].
      * destruct (IH w2 (log ++ [from_message f])) as (k & Hk & Hlog & Ht & Hf).
        exists (S k). cbn [List.length firstn map]. repeat split.
        -- lia.
        -- rewrite Hlog, <- app_assoc. reflexivity.
        -- intros H. now rewrite (Ht H).
        -- lia.
      * exists 1%nat. cbn. repeat split; auto; try lia; discriminate.
    + exists 1%nat. cbn. repeat split; auto; try lia; discriminate.
Qed.

End AddDataLoop.

Lemma from_message_not_done (func : data_function) : from_message func <> "done".
Proof. destruct func; discriminate. Qed.

Section AddDataFacts.
Variables World Info Data : Type.
Variable ScenarioInfo : World -> option Info.
Variable set_item : World -> string -> Info -> World.
Variable nexus_set : World -> option string.
Variable call : data_function -> World -> World * option Data.
Variable add_par_data : World -> Data -> bool -> World * bool.

Local Abbreviation select type_reg :=
  (select_data_funcs World nexus_set type_reg).
Local Abbreviation build type_reg :=
  (add_data World Info Data ScenarioInfo set_item nexus_set type_reg call
            add_par_data).




End AddDataFacts.



